(** * Listing view of the GitHub dashboard ([src/app/page.tsx])

    A shallow embedding of the [HomePage] component: its React state, the two
    asynchronous operations [fetchUsers] and [searchUsers] (each split at its
    [await] into the part that runs when the call is made and the part that
    runs when the request settles), the debounce effect, the
    intersection-observer ref callback, the two button handlers and the
    render function, followed by the properties of the pagination and search
    state machine. *)

From Stdlib Require Import ZArith Lia Ascii String DecimalString.
From stdpp Require Import base decidable list gmap strings.

Open Scope Z_scope.

(** ** Data *)

(** [interface User]. *)
Record User := mkUser {
  id : Z;
  login : string;
  avatar_url : string;
  html_url : string
}.

#[global] Instance User_eq_dec : EqDecision User.
Proof. solve_decision. Defined.

Definition ids (l : list User) : list Z := map id l.

(** ** Strings *)

(** White space removed by [String.prototype.trim], on the code units a
    one-byte character can hold: TAB, LF, VT, FF, CR, SPACE and NBSP. *)
Definition is_white_space (c : ascii) : bool :=
  let n := Z.of_nat (nat_of_ascii c) in
  ((9 <=? n) && (n <=? 13)) || (n =? 32) || (n =? 160).

Fixpoint trim_start (s : string) : string :=
  match s with
  | EmptyString => EmptyString
  | String c s' => if is_white_space c then trim_start s' else s
  end.

Fixpoint trim_end (s : string) : string :=
  match s with
  | EmptyString => EmptyString
  | String c s' =>
      match trim_end s' with
      | EmptyString => if is_white_space c then EmptyString else String c EmptyString
      | t => String c t
      end
  end.

Definition trim (s : string) : string := trim_end (trim_start s).

(** Truthiness of a string: the empty string is the only falsy one. *)
Definition truthy (s : string) : bool :=
  match s with EmptyString => false | _ => true end.

(** [!query.trim()]. *)
Definition blank (s : string) : bool := negb (truthy (trim s)).

(** [`${n}`] for an integer. *)
Definition number_to_string (n : Z) : string :=
  NilZero.string_of_int (Z.to_int n).

(** ** Outcomes of a request *)

(** What a [catch] clause receives: an [Error] object with its message, or
    some other thrown value. *)
Inductive Thrown :=
| ErrorObject (message : string)
| OtherValue.

(** A request either rejects ([fetch] or [response.json()] throws) or yields
    a response with a status and a decoded body. *)
Inductive Outcome (A : Type) :=
| Rejected (e : Thrown)
| Response (status : Z) (body : A).
Arguments Rejected {A} e.
Arguments Response {A} status body.

(** [response.ok]. *)
Definition ok (status : Z) : bool := (200 <=? status) && (status <=? 299).

(** The body of the [try] block up to the decoded payload: the value obtained
    or the value thrown. *)
Definition payload {A} (o : Outcome A) : A + Thrown :=
  match o with
  | Rejected e => inr e
  | Response status body =>
      if ok status then inl body
      else inr (ErrorObject ("HTTP error! status: " +:+ number_to_string status))
  end.

(** [err instanceof Error ? err.message : fallback]. *)
Definition error_message (fallback : string) (e : Thrown) : string :=
  match e with
  | ErrorObject m => m
  | OtherValue => fallback
  end.

(** The body of the search endpoint: an object whose [items] may be absent. *)
Record SearchData := mkSearchData { items : option (list User) }.

(** [data.items || []]: an array, even an empty one, is truthy. *)
Definition items_or_empty (data : SearchData) : list User :=
  match items data with
  | Some l => l
  | None => []
  end.

(** ** React state of [HomePage] *)

Record ViewState := mkView {
  users : list User;
  users_ref : nat;  (* identity of the array object held in [users] *)
  filteredUsers : list User;
  loading : bool;
  hasMore : bool;
  page : Z;
  error : option string;
  searchQuery : string;
  isSearching : bool;
  searchResults : list User;
  isInitialized : bool
}.

(** The values of the [useState] calls at mount. *)
Definition initial_view : ViewState :=
  {| users := []; users_ref := 0; filteredUsers := []; loading := true;
     hasMore := true; page := 1; error := None; searchQuery := "";
     isSearching := false; searchResults := []; isInitialized := false |}.

(** The setters. [setUsers] always receives a freshly built array, so it also
    changes the identity that dependency arrays compare. *)
Definition setUsers (v : list User) (s : ViewState) : ViewState :=
  {| users := v; users_ref := S (users_ref s);
     filteredUsers := filteredUsers s; loading := loading s;
     hasMore := hasMore s; page := page s; error := error s;
     searchQuery := searchQuery s; isSearching := isSearching s;
     searchResults := searchResults s; isInitialized := isInitialized s |}.
Definition setFilteredUsers (v : list User) (s : ViewState) : ViewState :=
  {| users := users s; users_ref := users_ref s; filteredUsers := v;
     loading := loading s; hasMore := hasMore s; page := page s;
     error := error s; searchQuery := searchQuery s;
     isSearching := isSearching s; searchResults := searchResults s;
     isInitialized := isInitialized s |}.
Definition setLoading (v : bool) (s : ViewState) : ViewState :=
  {| users := users s; users_ref := users_ref s;
     filteredUsers := filteredUsers s; loading := v; hasMore := hasMore s;
     page := page s; error := error s; searchQuery := searchQuery s;
     isSearching := isSearching s; searchResults := searchResults s;
     isInitialized := isInitialized s |}.
Definition setHasMore (v : bool) (s : ViewState) : ViewState :=
  {| users := users s; users_ref := users_ref s;
     filteredUsers := filteredUsers s; loading := loading s; hasMore := v;
     page := page s; error := error s; searchQuery := searchQuery s;
     isSearching := isSearching s; searchResults := searchResults s;
     isInitialized := isInitialized s |}.
Definition setPage (v : Z) (s : ViewState) : ViewState :=
  {| users := users s; users_ref := users_ref s;
     filteredUsers := filteredUsers s; loading := loading s;
     hasMore := hasMore s; page := v; error := error s;
     searchQuery := searchQuery s; isSearching := isSearching s;
     searchResults := searchResults s; isInitialized := isInitialized s |}.
Definition setError (v : option string) (s : ViewState) : ViewState :=
  {| users := users s; users_ref := users_ref s;
     filteredUsers := filteredUsers s; loading := loading s;
     hasMore := hasMore s; page := page s; error := v;
     searchQuery := searchQuery s; isSearching := isSearching s;
     searchResults := searchResults s; isInitialized := isInitialized s |}.
Definition setSearchQuery (v : string) (s : ViewState) : ViewState :=
  {| users := users s; users_ref := users_ref s;
     filteredUsers := filteredUsers s; loading := loading s;
     hasMore := hasMore s; page := page s; error := error s;
     searchQuery := v; isSearching := isSearching s;
     searchResults := searchResults s; isInitialized := isInitialized s |}.
Definition setIsSearching (v : bool) (s : ViewState) : ViewState :=
  {| users := users s; users_ref := users_ref s;
     filteredUsers := filteredUsers s; loading := loading s;
     hasMore := hasMore s; page := page s; error := error s;
     searchQuery := searchQuery s; isSearching := v;
     searchResults := searchResults s; isInitialized := isInitialized s |}.
Definition setSearchResults (v : list User) (s : ViewState) : ViewState :=
  {| users := users s; users_ref := users_ref s;
     filteredUsers := filteredUsers s; loading := loading s;
     hasMore := hasMore s; page := page s; error := error s;
     searchQuery := searchQuery s; isSearching := isSearching s;
     searchResults := v; isInitialized := isInitialized s |}.
Definition setIsInitialized (v : bool) (s : ViewState) : ViewState :=
  {| users := users s; users_ref := users_ref s;
     filteredUsers := filteredUsers s; loading := loading s;
     hasMore := hasMore s; page := page s; error := error s;
     searchQuery := searchQuery s; isSearching := isSearching s;
     searchResults := searchResults s; isInitialized := v |}.

(** ** [fetchUsers] *)

(** The updater passed to [setUsers] for a page after the first: the entries
    of [data] whose identifier is not in the set built from the previous
    listing, appended to it. *)
Definition merge_page (prevUsers data : list User) : list User :=
  let existingIds : gset Z := list_to_set (map id prevUsers) in
  let uniqueNewUsers :=
    List.filter (fun user => negb (bool_decide (id user ∈ existingIds))) data in
  prevUsers ++ uniqueNewUsers.

(** [fetchUsers(pageNum)] up to its first [await]. *)
Definition fetchUsers_begin (pageNum : Z) (s : ViewState) : ViewState :=
  let s := if pageNum =? 1 then setLoading true s else s in
  setError None s.

(** [fetchUsers(pageNum)] from the moment the request settles. *)
Definition fetchUsers_settle (pageNum : Z) (o : Outcome (list User))
    (s : ViewState) : ViewState :=
  let s :=
    match payload o with
    | inl data =>
        if (Z.of_nat (length data) =? 0) then setHasMore false s
        else
          let s :=
            if pageNum =? 1 then
              setIsInitialized true (setFilteredUsers data (setUsers data s))
            else
              let newUsers := merge_page (users s) data in
              setUsers newUsers (setFilteredUsers newUsers s)
          in setPage pageNum s
    | inr err => setError (Some (error_message "Failed to fetch users" err)) s
    end in
  setLoading false s.

(** ** [searchUsers]

    The callback closes over [users] (its only dependency); [users_c] is the
    listing of the render that created the callback. *)

(** [searchUsers(query)] up to its first [await]; the boolean tells whether
    a request is sent. A blank query returns before the [try] block. *)
Definition searchUsers_begin (users_c : list User) (query : string)
    (s : ViewState) : ViewState * bool :=
  if blank query then
    (setFilteredUsers users_c (setSearchResults [] (setIsSearching false s)),
     false)
  else (setError None (setIsSearching true s), true).

(** [searchUsers(query)] from the moment the request settles. *)
Definition searchUsers_settle (users_c : list User) (query : string)
    (o : Outcome SearchData) (s : ViewState) : ViewState :=
  let s :=
    match payload o with
    | inl data =>
        let searchItems := items_or_empty data in
        setFilteredUsers searchItems (setSearchResults searchItems s)
    | inr err =>
        let s :=
          setSearchResults []
            (setError (Some (error_message "Failed to search users" err)) s) in
        if blank query then setFilteredUsers users_c s else s
    end in
  setIsSearching false s.

(** ** Button handlers *)

(** [retryFetch] up to the [await] inside [fetchUsers(1)]. *)
Definition retryFetch (s : ViewState) : ViewState :=
  fetchUsers_begin 1 (setError None s).

(** [clearSearch], closing over the [users] of the current render. *)
Definition clearSearch (users_c : list User) (s : ViewState) : ViewState :=
  setError None
    (setFilteredUsers users_c
       (setSearchResults [] (setIsSearching false (setSearchQuery "" s)))).

(** ** The debounce effect *)

Definition debounce_delay : Z := 500.

(** A pending [setTimeout]: when it is due, and the [searchQuery] and [users]
    its callback closes over ([searchUsers] closes over the same [users]). *)
Record DebounceTimer := mkTimer {
  deadline : Z;
  t_searchQuery : string;
  t_users : list User
}.

(** The callback of the timer; the boolean tells whether a search request is
    sent. *)
Definition debounce_callback (t : DebounceTimer) (s : ViewState)
    : ViewState * bool :=
  if truthy (trim (t_searchQuery t)) then
    searchUsers_begin (t_users t) (t_searchQuery t) s
  else
    (setFilteredUsers (t_users t) (setSearchResults [] (setIsSearching false s)),
     false).

(** ** The intersection observer *)

(** The dependencies of the [lastUserRef] callback, i.e. what it closes over. *)
Record LastUserRef := mkRef {
  ref_loading : bool;
  ref_hasMore : bool;
  ref_page : Z;
  ref_searchQuery : string
}.

(** The object in [observer.current]: what its callback closes over, and
    whether it watches an element. An observer is disconnected before
    [observer.current] is overwritten, so no other observer is ever live. *)
Record IntersectionObserver := mkObserver {
  cb_hasMore : bool;
  cb_page : Z;
  observing : bool
}.

(** [lastUserRef(node)] as a transformer of [observer.current]; [node] tells
    whether the argument is an element ([true]) or [null] ([false]). *)
Definition lastUserRef (c : LastUserRef) (node : bool)
    (current : option IntersectionObserver) : option IntersectionObserver :=
  if ref_loading c || truthy (trim (ref_searchQuery c)) then current
  else Some {| cb_hasMore := ref_hasMore c; cb_page := ref_page c;
               observing := node |}.

(** The callback given to [new IntersectionObserver]: the page it asks
    [fetchUsers] for, if any. *)
Definition observer_callback (o : IntersectionObserver) (isIntersecting : bool)
    : option Z :=
  if isIntersecting && cb_hasMore o then Some (cb_page o + 1) else None.

(** ** Render *)

Inductive SearchStatus :=
| Searching
| Found (n : nat)
| NoUsersFound.

(** The parts of the dashboard whose presence depends on the state. *)
Record Dashboard := mkDashboard {
  clear_button : bool;
  search_status : option SearchStatus;
  clear_search_link : bool;
  stats_count : nat;
  stats_is_search : bool;
  loading_more : bool;
  error_block : option string;   (* the message, next to the retry button *)
  cards : list User;
  last_card_has_ref : bool;
  end_of_results : bool
}.

Inductive Screen :=
| LoadingScreen
| DashboardScreen (d : Dashboard).

(** The value returned by [HomePage] for a state. *)
Definition render (s : ViewState) : Screen :=
  if negb (isInitialized s) then LoadingScreen
  else
    let q := truthy (searchQuery s) in
    DashboardScreen
      {| clear_button := q;
         search_status :=
           if q then
             Some (if isSearching s then Searching
                   else if (0 <? Z.of_nat (length (searchResults s)))
                        then Found (length (searchResults s))
                        else NoUsersFound)
           else None;
         clear_search_link :=
           q && (0 <? Z.of_nat (length (searchResults s)));
         stats_count :=
           if q then length (searchResults s) else length (users s);
         stats_is_search := q;
         loading_more := loading s && negb q;
         error_block :=
           match error s with
           | Some m => if truthy m then Some m else None
           | None => None
           end;
         cards := filteredUsers s;
         last_card_has_ref :=
           negb q && (0 <? Z.of_nat (length (filteredUsers s)));
         end_of_results :=
           negb (hasMore s) && (0 <? Z.of_nat (length (users s))) && negb q |}.

Definition retry_button_shown (s : ViewState) : bool :=
  match render s with
  | DashboardScreen d => bool_decide (is_Some (error_block d))
  | LoadingScreen => false
  end.

Definition clear_button_shown (s : ViewState) : bool :=
  match render s with
  | DashboardScreen d => clear_button d || clear_search_link d
  | LoadingScreen => false
  end.

Definition search_input_shown (s : ViewState) : bool :=
  match render s with
  | DashboardScreen _ => true
  | LoadingScreen => false
  end.

(** The React key of the card that carries the ref: the user's identifier
    and its index. *)
Definition CardKey : Type := Z * nat.

(** The ref callback the render puts on the last card, with the key of that
    card; [None] when no card carries it. *)
Definition last_card (s : ViewState) : option (LastUserRef * CardKey) :=
  match render s with
  | LoadingScreen => None
  | DashboardScreen d =>
      if last_card_has_ref d then
        match last (cards d) with
        | Some u =>
            Some ({| ref_loading := loading s; ref_hasMore := hasMore s;
                     ref_page := page s; ref_searchQuery := searchQuery s |},
                  (id u, Nat.pred (length (cards d))))
        | None => None
        end
      else None
  end.

(** ** The mounted component

    The state together with what lives outside it: the observer ref, the ref
    callback React has attached, the dependencies the debounce effect last ran
    with, the pending timer, the requests awaiting an answer, the log of all
    requests sent so far, and the time in milliseconds. *)

(** A request awaiting its answer, with what its continuation closes over. *)
Inductive Request :=
| PageRequest (pageNum : Z)
| SearchRequest (query : string) (users_c : list User).

Inductive Settlement :=
| PageOutcome (o : Outcome (list User))
| SearchOutcome (o : Outcome SearchData).

#[global] Instance LastUserRef_eq_dec : EqDecision LastUserRef.
Proof. solve_decision. Defined.

Record Sys := mkSys {
  view : ViewState;
  observer : option IntersectionObserver;
  attached : option (LastUserRef * CardKey);
  effect_deps : string * nat;
  timer : option DebounceTimer;
  inflight : list Request;
  issued : list Request;
  clock : Z
}.

Definition set_view (v : ViewState) (y : Sys) : Sys :=
  {| view := v; observer := observer y; attached := attached y;
     effect_deps := effect_deps y; timer := timer y; inflight := inflight y;
     issued := issued y; clock := clock y |}.

(** Sending a request: it is awaited and logged. *)
Definition send (r : Request) (y : Sys) : Sys :=
  {| view := view y; observer := observer y; attached := attached y;
     effect_deps := effect_deps y; timer := timer y;
     inflight := inflight y ++ [r]; issued := issued y ++ [r];
     clock := clock y |}.

(** A call [fetchUsers(pageNum)]. *)
Definition call_fetchUsers (pageNum : Z) (y : Sys) : Sys :=
  send (PageRequest pageNum) (set_view (fetchUsers_begin pageNum (view y)) y).

(** Running a callback of the search controller that may send a request for
    [query]. *)
Definition run_search (users_c : list User) (query : string)
    (r : ViewState * bool) (y : Sys) : Sys :=
  let y' := set_view (fst r) y in
  if snd r then send (SearchRequest query users_c) y' else y'.

(** *** Commit: refs and effects after a render *)

(** React detaches the old ref callback (calling it with [null]) and attaches
    the new one (calling it with the element) whenever the callback or the
    element that carries it differs from the previous commit. *)
Definition update_ref (want have : option (LastUserRef * CardKey))
    (current : option IntersectionObserver) : option IntersectionObserver :=
  if decide (want = have) then current
  else
    let current :=
      match have with
      | Some (c, _) => lastUserRef c false current
      | None => current
      end in
    match want with
    | Some (c, _) => lastUserRef c true current
    | None => current
    end.

(** The debounce effect: when [searchQuery] or [users] (hence [searchUsers])
    differ from its last run, the cleanup clears the pending timer and a new
    one is set. *)
Definition run_debounce_effect (y : Sys) : Sys :=
  let deps := (searchQuery (view y), users_ref (view y)) in
  if decide (deps = effect_deps y) then y
  else
    {| view := view y; observer := observer y; attached := attached y;
       effect_deps := deps;
       timer := Some {| deadline := clock y + debounce_delay;
                        t_searchQuery := searchQuery (view y);
                        t_users := users (view y) |};
       inflight := inflight y; issued := issued y; clock := clock y |}.

Definition commit (y : Sys) : Sys :=
  let want := last_card (view y) in
  run_debounce_effect
    {| view := view y;
       observer := update_ref want (attached y) (observer y);
       attached := want;
       effect_deps := effect_deps y; timer := timer y;
       inflight := inflight y; issued := issued y; clock := clock y |}.

(** *** Events *)

Inductive Event :=
| Settle (i : nat) (r : Settlement)  (* the [i]-th awaited request settles *)
| Intersect (isIntersecting : bool)  (* the observer reports on its element *)
| ClickRetry
| ClickClear
| Input (value : string)             (* [onChange] of the search box *)
| Wait (ms : Z).                     (* time passes *)

Definition fire_timer (t : DebounceTimer) (y : Sys) : Sys :=
  run_search (t_users t) (t_searchQuery t) (debounce_callback t (view y))
    {| view := view y; observer := observer y; attached := attached y;
       effect_deps := effect_deps y; timer := None; inflight := inflight y;
       issued := issued y; clock := clock y |}.

Definition advance (ms : Z) (y : Sys) : Sys :=
  {| view := view y; observer := observer y; attached := attached y;
     effect_deps := effect_deps y; timer := timer y; inflight := inflight y;
     issued := issued y; clock := clock y + ms |}.

Definition settled (i : nat) (v : ViewState) (y : Sys) : Sys :=
  {| view := v; observer := observer y; attached := attached y;
     effect_deps := effect_deps y; timer := timer y;
     inflight := delete i (inflight y); issued := issued y; clock := clock y |}.

(** The handler an event runs; [None] when the event cannot occur (no such
    request, nothing observed, a control that is not on screen, time going
    backwards). *)
Definition handle (e : Event) (y : Sys) : option Sys :=
  match e with
  | Settle i r =>
      match inflight y !! i, r with
      | Some (PageRequest pageNum), PageOutcome o =>
          Some (settled i (fetchUsers_settle pageNum o (view y)) y)
      | Some (SearchRequest query users_c), SearchOutcome o =>
          Some (settled i (searchUsers_settle users_c query o (view y)) y)
      | _, _ => None
      end
  | Intersect isIntersecting =>
      match observer y with
      | Some o =>
          if observing o then
            Some (match observer_callback o isIntersecting with
                  | Some pageNum => call_fetchUsers pageNum y
                  | None => y
                  end)
          else None
      | None => None
      end
  | ClickRetry =>
      if retry_button_shown (view y) then
        Some (send (PageRequest 1) (set_view (retryFetch (view y)) y))
      else None
  | ClickClear =>
      if clear_button_shown (view y) then
        Some (set_view (clearSearch (users (view y)) (view y)) y)
      else None
  | Input value =>
      if search_input_shown (view y) then
        Some (set_view (setSearchQuery value (view y)) y)
      else None
  | Wait ms =>
      if 0 <=? ms then
        let y := advance ms y in
        match timer y with
        | Some t => if deadline t <=? clock y then Some (fire_timer t y)
                    else Some y
        | None => Some y
        end
      else None
  end.

(** One event: its handler, then the re-render and commit, taken as one
    atomic step (no other callback runs between a state update and the
    commit of the render it causes). *)
Definition step (e : Event) (y : Sys) : option Sys :=
  commit <$> handle e y.

Fixpoint run (es : list Event) (y : Sys) : option Sys :=
  match es with
  | [] => Some y
  | e :: es => y' ← step e y; run es y'
  end.

(** The component after mounting: both effects have run, so page 1 is
    awaited and the first debounce timer is pending. *)
Definition mount : Sys :=
  {| view := fetchUsers_begin 1 initial_view;
     observer := None;
     attached := None;
     effect_deps := ("", 0%nat);
     timer := Some {| deadline := debounce_delay; t_searchQuery := "";
                      t_users := [] |};
     inflight := [PageRequest 1];
     issued := [PageRequest 1];
     clock := 0 |}.

(** * Vocabulary of the properties

    The invariant that ties the closures to the state, the requests an event
    sends, sample data and runs, and the laws of the specification written
    over the component. *)

(** ** Consistency of the closures with the state

    Callbacks close over the values of the render that created them. A
    component is consistent when what the live observer and the pending timer
    closed over is what the state holds now, pages are numbered from 1, and
    only non-blank queries are awaited. *)

(** A watching observer was created by the ref callback that is attached
    now, whose guard did not return early. *)
Definition observer_ok (o : option IntersectionObserver)
    (a : option (LastUserRef * CardKey)) : Prop :=
  forall ob, o = Some ob -> observing ob = true ->
    exists c k, a = Some (c, k)
      /\ cb_hasMore ob = ref_hasMore c
      /\ cb_page ob = ref_page c
      /\ ref_loading c || truthy (trim (ref_searchQuery c)) = false.

(** Pages are numbered from 1 and blank queries are never sent. *)
Definition request_ok (r : Request) : Prop :=
  match r with
  | PageRequest pageNum => 1 <= pageNum
  | SearchRequest query _ => blank query = false
  end.

(** The pending timer closed over the current query and listing. *)
Definition timer_ok (y : Sys) : Prop :=
  forall t, timer y = Some t ->
    t_searchQuery t = searchQuery (view y) /\ t_users t = users (view y).

Record consistent (y : Sys) : Prop := {
  c_attached : attached y = last_card (view y);
  c_observer : observer_ok (observer y) (attached y);
  c_deps : effect_deps y = (searchQuery (view y), users_ref (view y));
  c_timer : timer_ok y;
  c_page : 1 <= page (view y);
  c_inflight : Forall request_ok (inflight y)
}.

(** What holds between a handler and the commit that follows it. *)
Record handled (y : Sys) : Prop := {
  h_observer : observer_ok (observer y) (attached y);
  h_timer :
    effect_deps y = (searchQuery (view y), users_ref (view y)) -> timer_ok y;
  h_page : 1 <= page (view y);
  h_inflight : Forall request_ok (inflight y)
}.

(** The state transformers keep the array in [users] unless they give it a
    new identity. *)
Definition users_stable (s s' : ViewState) : Prop :=
  users_ref s' = users_ref s -> users s' = users s.

(** ** Requests and runs *)

(** The requests the handler of an event sends. *)
Definition sent (e : Event) (y : Sys) : list Request :=
  match e with
  | Intersect isIntersecting =>
      match observer y with
      | Some o =>
          match observer_callback o isIntersecting with
          | Some pageNum => [PageRequest pageNum]
          | None => []
          end
      | None => []
      end
  | ClickRetry => [PageRequest 1]
  | Wait ms =>
      match timer y with
      | Some t =>
          if (deadline t <=? clock y + ms) && negb (blank (t_searchQuery t))
          then [SearchRequest (t_searchQuery t) (t_users t)]
          else []
      | None => []
      end
  | _ => []
  end.

(** ** Sample data *)

Definition sample_user (n : Z) : User :=
  {| id := n; login := "user" +:+ number_to_string n;
     avatar_url := "https://avatars.example/" +:+ number_to_string n;
     html_url := "https://github.com/user" +:+ number_to_string n |}.

(** The users with identifiers [a], [a+1], ..., [a+n-1]. *)
Definition sample_users (a : Z) (n : nat) : list User :=
  map (fun k => sample_user (a + Z.of_nat k)) (seq 0 n).

(** An answer with status 200. *)
Definition success {A} (body : A) : Outcome A := Response 200 body.

(** A sequence of page loads settling one after the other. *)
Definition load_pages (loads : list (Z * Outcome (list User)))
    (s : ViewState) : ViewState :=
  foldl (fun s l => fetchUsers_settle l.1 l.2 s) s loads.

(** ** Laws and runs used by the properties *)

(** What a response can install: the listing, the displayed list, the search
    result set and the page number. *)
Definition results (s : ViewState) : list User * list User * list User * Z :=
  (users s, filteredUsers s, searchResults s, page s).

(** The stale-response law: awaited requests are kept in the order they were
    sent, so [i < j] says that [A], the [i]-th, was sent before [B], the
    [j]-th. *)
Definition stale_response_law : Prop :=
  forall es y i j ra rb yB yA,
    run es mount = Some y ->
    (i < j)%nat ->
    step (Settle j rb) y = Some yB ->
    step (Settle i ra) yB = Some yA ->
    results (view yA) = results (view yB).

(** Typing "a", pausing, typing "ab", pausing: two searches are awaited. *)
Definition two_searches : list Event :=
  [Settle 0 (PageOutcome (success [sample_user 1]));
   Input "a"; Wait 500; Input "ab"; Wait 500].

(** A successful answer to a search, with [l] as its items. *)
Definition answer (l : list User) : Settlement :=
  SearchOutcome (success {| items := Some l |}).

Definition after_two_searches : Sys :=
  Eval vm_compute in default mount (run two_searches mount).

Definition after_answer_ab : Sys :=
  Eval vm_compute in
    default mount (step (Settle 1 (answer [sample_user 20])) after_two_searches).

(** Page 1 has arrived and the observer has asked for page 2. *)
Definition paging_started : list Event :=
  [Settle 0 (PageOutcome (success [sample_user 1])); Intersect true].

Definition after_paging_started : Sys :=
  Eval vm_compute in default mount (run paging_started mount).

Definition is_page_request (r : Request) : bool :=
  match r with
  | PageRequest _ => true
  | SearchRequest _ _ => false
  end.

Definition page_loads_in_flight (y : Sys) : nat :=
  length (List.filter is_page_request (inflight y)).

(** The trigger policy as C4 words it: the observer asks for a page only
    when its element is visible, the listing is not exhausted, no query is
    being searched for and no page load is awaited; and never more than one
    page load is awaited. *)
Definition trigger_law : Prop :=
  forall es y isIntersecting y',
    run es mount = Some y ->
    step (Intersect isIntersecting) y = Some y' ->
    (issued y' <> issued y ->
       isIntersecting = true /\ hasMore (view y) = true
       /\ blank (searchQuery (view y)) = true
       /\ page_loads_in_flight y = 0%nat)
    /\ (page_loads_in_flight y' <= 1)%nat.

(** The timer an edit leaves behind. *)
Definition armed (y : Sys) (query : string) : Prop :=
  consistent y
  /\ search_input_shown (view y) = true
  /\ searchQuery (view y) = query
  /\ timer y = Some {| deadline := clock y + debounce_delay;
                       t_searchQuery := query;
                       t_users := users (view y) |}.

(** A burst: a first edit, then edits each arriving [gap] milliseconds after
    the one before. *)
Fixpoint burst_events (rest : list (Z * string)) : list Event :=
  match rest with
  | [] => []
  | (gap, value) :: rest => Wait gap :: Input value :: burst_events rest
  end.

Definition burst (v0 : string) (rest : list (Z * string)) : list Event :=
  Input v0 :: burst_events rest.

Fixpoint final_value (v0 : string) (rest : list (Z * string)) : string :=
  match rest with
  | [] => v0
  | (_, value) :: rest => final_value value rest
  end.

(** Every edit changes the text and arrives within the debounce window of
    the edit before it. *)
Fixpoint within_window (prev : string) (rest : list (Z * string)) : Prop :=
  match rest with
  | [] => True
  | (gap, value) :: rest =>
      0 <= gap < debounce_delay /\ value <> prev /\ within_window value rest
  end.

(** The debounce law as C7 words it: a burst sends exactly one search
    request, for the final text. *)
Definition debounce_law : Prop :=
  forall es y v0 rest y1 y2,
    run es mount = Some y ->
    v0 <> searchQuery (view y) ->
    within_window v0 rest ->
    run (burst v0 rest) y = Some y1 ->
    step (Wait debounce_delay) y1 = Some y2 ->
    exists users_c,
      issued y2 = issued y ++ [SearchRequest (final_value v0 rest) users_c].

(** The first page arrives with one user. *)
Definition page_one_loaded : list Event :=
  [Settle 0 (PageOutcome (success [sample_user 1]))].

Definition after_page_one : Sys :=
  Eval vm_compute in default mount (run page_one_loaded mount).

Definition after_typing_and_erasing : Sys :=
  Eval vm_compute in default mount (run (burst "a" [(100, "")]) after_page_one).

Definition after_erasing_pause : Sys :=
  Eval vm_compute in
    default mount (step (Wait debounce_delay) after_typing_and_erasing).

(** Events of the search controller: edits, time passing, answers to search
    requests and the clear buttons. *)
Definition search_event (e : Event) : bool :=
  match e with
  | Settle _ (SearchOutcome _) => true
  | ClickClear => true
  | Input _ => true
  | Wait _ => true
  | _ => false
  end.

(** Search mode has been left from [y] and the listing of [y0] is shown. *)
Definition cleared (y0 y y' : Sys) : Prop :=
  isSearching (view y') = false
  /\ searchResults (view y') = []
  /\ filteredUsers (view y') = users (view y0)
  /\ users (view y') = users (view y0)
  /\ issued y' = issued y.

(** "torvalds" is typed, searched for and answered with one user. *)
Definition searching : list Event :=
  [Input "torvalds"; Wait 500;
   Settle 0 (answer [sample_user 1024025])].

Definition after_searching : Sys :=
  Eval vm_compute in default mount (run searching after_page_one).

(** A component that is not initialized, awaits nothing and has no text in
    the search box. *)
Definition stuck (y : Sys) : Prop :=
  isInitialized (view y) = false
  /\ inflight y = []
  /\ searchQuery (view y) = ""
  /\ (forall o, observer y = Some o -> observing o = false)
  /\ (forall t, timer y = Some t -> t_searchQuery t = "").

(** ** Vocabulary of the further properties *)

(** Every page answer among the events is free of repeated identifiers. *)
Definition pages_duplicate_free (es : list Event) : Prop :=
  Forall (fun e =>
            match e with
            | Settle _ (PageOutcome o) =>
                forall data, payload o = inl data -> NoDup (ids data)
            | _ => True
            end) es.

(** The converse of [observer_ok]: when the attached ref callback did not
    return early, the observer it created is watching. *)
Definition watching_ok (y : Sys) : Prop :=
  forall c k, attached y = Some (c, k) ->
    ref_loading c || truthy (trim (ref_searchQuery c)) = false ->
    exists ob, observer y = Some ob /\ observing ob = true.

(** The two busy flags are raised only while a matching request is
    awaited. *)
Definition busy_flags_ok (y : Sys) : Prop :=
  (loading (view y) = true -> PageRequest 1 ∈ inflight y)
  /\ (isSearching (view y) = true ->
      exists query users_c, SearchRequest query users_c ∈ inflight y).

(** States and runs the further properties are tried on. *)

(** A second page [1, 2, 3] arrives after [paging_started]. *)
Definition after_second_page : Sys :=
  Eval vm_compute in
    default mount
      (step (Settle 0 (PageOutcome (success (sample_users 1 3))))
         after_paging_started).

(** A search fails, the box is cleared, the observer asks for page 2, and
    page 2 fails with status 500. *)
Definition troubles : list Event :=
  [Input "a"; Wait 500; Settle 0 (SearchOutcome (Rejected OtherValue));
   ClickClear; Intersect true; Settle 0 (PageOutcome (Response 500 []))].

Definition after_troubles : Sys :=
  Eval vm_compute in default mount (run troubles after_page_one).

(** The observer fires twice and page 2 is answered twice. *)
Definition duplicate_answers : list Event :=
  [Settle 0 (PageOutcome (success (sample_users 1 3)));
   Intersect true; Intersect true;
   Settle 0 (PageOutcome (success (sample_users 3 3)));
   Settle 0 (PageOutcome (success (sample_users 3 3)))].

Definition after_duplicate_answers : Sys :=
  Eval vm_compute in default mount (run duplicate_answers mount).

(** "t", "to", "tor" typed in quick succession. *)
Definition typing_tor : list Event := burst "t" [(120, "to"); (90, "tor")].

Definition after_typing_tor : Sys :=
  Eval vm_compute in default mount (run typing_tor after_page_one).

Definition after_typing_tor_pause : Sys :=
  Eval vm_compute in default mount (step (Wait 500) after_typing_tor).

Definition after_scroll : Sys :=
  Eval vm_compute in default mount (step (Intersect true) after_page_one).

(** Page 2 is asked for, then "a" is typed, searched for and answered. *)
Definition searching_while_paging : list Event :=
  [Intersect true; Input "a"; Wait 500; Settle 1 (answer [sample_user 20])].

Definition after_searching_while_paging : Sys :=
  Eval vm_compute in
    default mount (run searching_while_paging after_page_one).

Definition after_clear : Sys :=
  Eval vm_compute in default mount (step ClickClear after_searching).

(** After the answer to "torvalds", "ab" is typed and searched for. *)
Definition second_search : list Event := [Input "ab"; Wait 500].

Definition after_second_search : Sys :=
  Eval vm_compute in default mount (run second_search after_searching).

(** Clearing as C6 words it: as soon as the text in the box becomes blank,
    search mode is left and the listing of [y0] is shown. *)
Definition immediate_clear_law : Prop :=
  forall es0 y0 es y query y1,
    run es0 mount = Some y0 ->
    forallb search_event es = true ->
    run es y0 = Some y ->
    blank query = true ->
    query <> searchQuery (view y) ->
    step (Input query) y = Some y1 ->
    cleared y0 y y1.

(** A blank is typed over "torvalds" while its results are shown. *)
Definition after_typing_blank : Sys :=
  Eval vm_compute in default mount (step (Input " ") after_searching).

(** The failure policy as C8 words it: the message is surfaced, and the
    displayed list is the accumulated listing if the text in the box has
    become blank since the request was sent, and is left as it was
    otherwise. *)
Definition search_failure_law : Prop :=
  forall es y i query users_c o err y',
    run es mount = Some y ->
    inflight y !! i = Some (SearchRequest query users_c) ->
    payload o = inr err ->
    step (Settle i (SearchOutcome o)) y = Some y' ->
    is_Some (error (view y'))
    /\ filteredUsers (view y')
       = if blank (searchQuery (view y)) then users (view y)
         else filteredUsers (view y).

(** "ab" is being searched for and the box is emptied before the answer. *)
Definition after_erasing_ab : Sys :=
  Eval vm_compute in default mount (step (Input "") after_second_search).

Definition after_failed_ab : Sys :=
  Eval vm_compute in
    default mount
      (step (Settle 0 (SearchOutcome (Rejected (ErrorObject "Failed to fetch"))))
         after_erasing_ab).

(** * Properties *)

(** ** Frame facts about [commit] *)

Lemma run_debounce_effect_frame y :
  view (run_debounce_effect y) = view y
  /\ observer (run_debounce_effect y) = observer y
  /\ attached (run_debounce_effect y) = attached y
  /\ inflight (run_debounce_effect y) = inflight y
  /\ issued (run_debounce_effect y) = issued y
  /\ clock (run_debounce_effect y) = clock y.
Proof. unfold run_debounce_effect. by case_decide. Qed.

Lemma commit_frame y :
  view (commit y) = view y
  /\ attached (commit y) = last_card (view y)
  /\ inflight (commit y) = inflight y
  /\ issued (commit y) = issued y
  /\ clock (commit y) = clock y.
Proof.
  unfold commit.
  match goal with |- context [run_debounce_effect ?z] =>
    destruct (run_debounce_effect_frame z) as (-> & _ & -> & -> & -> & ->) end.
  done.
Qed.

Lemma commit_view y : view (commit y) = view y.
Proof. apply commit_frame. Qed.

Lemma commit_issued y : issued (commit y) = issued y.
Proof. apply commit_frame. Qed.

Lemma commit_inflight y : inflight (commit y) = inflight y.
Proof. apply commit_frame. Qed.

Lemma commit_clock y : clock (commit y) = clock y.
Proof. apply commit_frame. Qed.

Lemma commit_observer y :
  observer (commit y) = update_ref (last_card (view y)) (attached y) (observer y).
Proof.
  unfold commit.
  match goal with |- context [run_debounce_effect ?z] =>
    destruct (run_debounce_effect_frame z) as (_ & -> & _) end.
  done.
Qed.

Lemma step_inv e y y' :
  step e y = Some y' -> exists yh, handle e y = Some yh /\ y' = commit yh.
Proof.
  unfold step. destruct (handle e y) as [yh|]; simpl; [|done].
  intros [= <-]. eauto.
Qed.

(** ** Every reachable component is consistent *)

Lemma lastUserRef_detach c o a :
  observer_ok o a ->
  (forall c' k, a = Some (c', k) -> c' = c) ->
  forall ob, lastUserRef c false o = Some ob -> observing ob = false.
Proof.
  intros Ho Ha ob. unfold lastUserRef.
  destruct (ref_loading c || truthy (trim (ref_searchQuery c))) eqn:G.
  - intros ->. destruct (observing ob) eqn:E; [|done].
    destruct (Ho ob eq_refl E) as (c' & k & -> & _ & _ & G').
    rewrite (Ha c' k eq_refl) in G'. congruence.
  - by intros [= <-].
Qed.

Lemma update_ref_ok want have o :
  observer_ok o have -> observer_ok (update_ref want have o) want.
Proof.
  intros Ho. unfold update_ref. case_decide as E; [by subst|].
  set (o1 := match have with
             | Some (c, _) => lastUserRef c false o
             | None => o
             end).
  assert (H1 : forall ob, o1 = Some ob -> observing ob = false).
  { subst o1. destruct have as [[c k]|].
    - apply (lastUserRef_detach c o (Some (c, k))); [done|]. by intros ?? [= ->].
    - intros ob -> . destruct (observing ob) eqn:Eo; [|done].
      by destruct (Ho ob eq_refl Eo) as (? & ? & ? & _). }
  destruct want as [[c k]|].
  - unfold lastUserRef.
    destruct (ref_loading c || truthy (trim (ref_searchQuery c))) eqn:G.
    + intros ob Hob Eo. rewrite (H1 ob Hob) in Eo. done.
    + intros ob [= <-] _. exists c, k. simpl. done.
  - intros ob Hob Eo. rewrite (H1 ob Hob) in Eo. done.
Qed.

Lemma commit_consistent y : handled y -> consistent (commit y).
Proof.
  intros [Ho Ht Hp Hi]. split.
  - rewrite commit_view. apply commit_frame.
  - rewrite commit_observer. destruct (commit_frame y) as (_ & -> & _).
    by apply update_ref_ok.
  - rewrite commit_view. unfold commit, run_debounce_effect; simpl.
    by case_decide.
  - intros t. rewrite commit_view.
    unfold commit, run_debounce_effect; simpl. case_decide as E; simpl.
    + apply Ht. done.
    + by intros [= <-].
  - by rewrite commit_view.
  - by rewrite commit_inflight.
Qed.

Lemma fetchUsers_settle_stable pageNum o s :
  users_stable s (fetchUsers_settle pageNum o s).
Proof.
  unfold users_stable, fetchUsers_settle.
  destruct (payload o) as [data|err]; simpl; [|done].
  destruct (Z.of_nat (length data) =? 0); simpl; [done|].
  destruct (pageNum =? 1); simpl; lia.
Qed.

Lemma searchUsers_settle_users users_c query o s :
  users (searchUsers_settle users_c query o s) = users s
  /\ users_ref (searchUsers_settle users_c query o s) = users_ref s
  /\ searchQuery (searchUsers_settle users_c query o s) = searchQuery s
  /\ page (searchUsers_settle users_c query o s) = page s
  /\ hasMore (searchUsers_settle users_c query o s) = hasMore s
  /\ isInitialized (searchUsers_settle users_c query o s) = isInitialized s.
Proof.
  unfold searchUsers_settle.
  destruct (payload o); simpl; [done|]. by destruct (blank query).
Qed.

Lemma fetchUsers_settle_frame pageNum o s :
  searchQuery (fetchUsers_settle pageNum o s) = searchQuery s
  /\ searchResults (fetchUsers_settle pageNum o s) = searchResults s
  /\ isSearching (fetchUsers_settle pageNum o s) = isSearching s.
Proof.
  unfold fetchUsers_settle.
  destruct (payload o) as [data|err]; simpl; [|done].
  destruct (Z.of_nat (length data) =? 0); simpl; [done|].
  by destruct (pageNum =? 1).
Qed.

Lemma fetchUsers_settle_page pageNum o s :
  1 <= pageNum -> 1 <= page s -> 1 <= page (fetchUsers_settle pageNum o s).
Proof.
  intros Hn Hp. unfold fetchUsers_settle.
  destruct (payload o) as [data|err]; simpl; [|done].
  destruct (Z.of_nat (length data) =? 0); simpl; [done|].
  by destruct (pageNum =? 1).
Qed.

Lemma fetchUsers_begin_frame pageNum s :
  users (fetchUsers_begin pageNum s) = users s
  /\ users_ref (fetchUsers_begin pageNum s) = users_ref s
  /\ filteredUsers (fetchUsers_begin pageNum s) = filteredUsers s
  /\ searchQuery (fetchUsers_begin pageNum s) = searchQuery s
  /\ page (fetchUsers_begin pageNum s) = page s
  /\ hasMore (fetchUsers_begin pageNum s) = hasMore s
  /\ isInitialized (fetchUsers_begin pageNum s) = isInitialized s
  /\ error (fetchUsers_begin pageNum s) = None.
Proof. unfold fetchUsers_begin. by destruct (pageNum =? 1). Qed.

Lemma searchUsers_begin_frame users_c query s :
  users (fst (searchUsers_begin users_c query s)) = users s
  /\ users_ref (fst (searchUsers_begin users_c query s)) = users_ref s
  /\ searchQuery (fst (searchUsers_begin users_c query s)) = searchQuery s
  /\ page (fst (searchUsers_begin users_c query s)) = page s
  /\ hasMore (fst (searchUsers_begin users_c query s)) = hasMore s
  /\ isInitialized (fst (searchUsers_begin users_c query s)) = isInitialized s
  /\ snd (searchUsers_begin users_c query s) = negb (blank query).
Proof. unfold searchUsers_begin. by destruct (blank query). Qed.

Lemma debounce_callback_frame t s :
  users (fst (debounce_callback t s)) = users s
  /\ users_ref (fst (debounce_callback t s)) = users_ref s
  /\ searchQuery (fst (debounce_callback t s)) = searchQuery s
  /\ page (fst (debounce_callback t s)) = page s
  /\ hasMore (fst (debounce_callback t s)) = hasMore s
  /\ isInitialized (fst (debounce_callback t s)) = isInitialized s
  /\ snd (debounce_callback t s) = negb (blank (t_searchQuery t)).
Proof.
  unfold debounce_callback, blank.
  destruct (truthy (trim (t_searchQuery t))) eqn:E; simpl; [|done].
  pose proof (searchUsers_begin_frame (t_users t) (t_searchQuery t) s) as H.
  unfold blank in H. rewrite E in H. apply H.
Qed.

#[local] Arguments fetchUsers_settle : simpl never.
#[local] Arguments searchUsers_settle : simpl never.
#[local] Arguments fetchUsers_begin : simpl never.
#[local] Arguments searchUsers_begin : simpl never.
#[local] Arguments debounce_callback : simpl never.

Lemma last_card_values s c k :
  last_card s = Some (c, k) ->
  ref_loading c = loading s /\ ref_hasMore c = hasMore s
  /\ ref_page c = page s /\ ref_searchQuery c = searchQuery s
  /\ isInitialized s = true /\ searchQuery s = "" /\ filteredUsers s <> [].
Proof.
  unfold last_card, render. destruct (isInitialized s); simpl; [|done].
  destruct (searchQuery s) eqn:Q; simpl; [|done].
  destruct (filteredUsers s) as [|u l] eqn:F; simpl; [done|].
  destruct (last (u :: l)); [|done].
  intros [= <- _]. simpl. done.
Qed.

(** What the live observer closed over is what the state holds. *)
Lemma observer_in_sync y ob :
  consistent y -> observer y = Some ob -> observing ob = true ->
  cb_hasMore ob = hasMore (view y) /\ cb_page ob = page (view y)
  /\ loading (view y) = false /\ searchQuery (view y) = ""
  /\ isInitialized (view y) = true /\ filteredUsers (view y) <> [].
Proof.
  intros C Hob Eo.
  destruct (c_observer y C ob Hob Eo) as (c & k & Ha & -> & -> & G).
  rewrite (c_attached y C) in Ha.
  destruct (last_card_values _ _ _ Ha) as (Hl & -> & -> & Hq & Hi & Hq' & Hf).
  apply orb_false_iff in G as [G _]. rewrite Hl in G. done.
Qed.

Ltac sys_simpl :=
  unfold call_fetchUsers, settled, send, set_view, advance;
  cbn [view observer attached effect_deps timer inflight issued clock].

Ltac handle_cases H :=
  match type of H with
  | handle ?e ?y = Some _ =>
      unfold handle in H;
      repeat match type of H with
        | context [match ?x with _ => _ end] =>
            let E := fresh "E" in destruct x eqn:E; try discriminate H
        end;
      try (injection H as <-)
  end.

Lemma handle_handled e y yh :
  consistent y -> handle e y = Some yh -> handled yh.
Proof.
  intros C H.
  assert (Ht : forall v tm,
    users_stable (view y) v -> searchQuery v = searchQuery (view y) ->
    (tm = timer y \/ tm = None) ->
    effect_deps y = (searchQuery v, users_ref v) ->
    forall t, tm = Some t ->
      t_searchQuery t = searchQuery v /\ t_users t = users v).
  { intros v tm Hs Hq Htm Hd t Et.
    rewrite (c_deps y C) in Hd. injection Hd as _ Hr.
    destruct Htm as [-> | ->]; [|done].
    destruct (c_timer y C t Et) as [-> ->]. rewrite Hq, Hs; done. }
  destruct e as [i r| b | | | value | ms]; handle_cases H.
  - (* a page request settles *)
    assert (Hn : request_ok (PageRequest pageNum)).
    { eapply Forall_forall; [apply (c_inflight y C)|].
      by eapply list_elem_of_lookup_2. }
    split; sys_simpl.
    + apply (c_observer y C).
    + intros Hd; refine (Ht _ _ _ _ _ Hd);
        [apply fetchUsers_settle_stable| apply fetchUsers_settle_frame
        | by left].
    + apply fetchUsers_settle_page; [done|apply (c_page y C)].
    + apply Forall_delete, (c_inflight y C).
  - (* a search request settles *)
    destruct (searchUsers_settle_users users_c query o (view y))
      as (Hu & Hr & Hq & Hp & _).
    split; sys_simpl.
    + apply (c_observer y C).
    + intros Hd; refine (Ht _ _ _ _ _ Hd); [by intros _| done | by left].
    + rewrite Hp. apply (c_page y C).
    + apply Forall_delete, (c_inflight y C).
  - (* the observer asks for the next page *)
    unfold observer_callback in E1.
    destruct (b && cb_hasMore i) eqn:Eb; [|done]. injection E1 as <-.
    destruct (observer_in_sync y i C E E0) as (_ & Hp & _).
    destruct (fetchUsers_begin_frame (cb_page i + 1) (view y))
      as (Hu & Hr & _ & Hq & Hpg & _).
    split; sys_simpl.
    + apply (c_observer y C).
    + intros Hd; refine (Ht _ _ _ _ _ Hd); [by intros _| done | by left].
    + rewrite Hpg. apply (c_page y C).
    + apply Forall_app; split; [apply (c_inflight y C)|].
      apply Forall_singleton. unfold request_ok. rewrite Hp.
      pose proof (c_page y C). lia.
  - (* the observer reports without asking *)
    split; [apply (c_observer y C)| intros _; apply (c_timer y C)
           | apply (c_page y C) | apply (c_inflight y C)].
  - (* retry *)
    split; sys_simpl.
    + apply (c_observer y C).
    + intros Hd; refine (Ht _ _ _ _ _ Hd); [by intros _| done | by left].
    + apply (c_page y C).
    + apply Forall_app; split; [apply (c_inflight y C)|].
      by apply Forall_singleton.
  - (* clear *)
    split; sys_simpl.
    + apply (c_observer y C).
    + intros Hd t; simpl. intros Et. rewrite (c_deps y C) in Hd.
      injection Hd as Hq. destruct (c_timer y C t Et) as [-> ->]. done.
    + apply (c_page y C).
    + apply (c_inflight y C).
  - (* input *)
    split; sys_simpl.
    + apply (c_observer y C).
    + intros Hd t; simpl. intros Et. rewrite (c_deps y C) in Hd.
      injection Hd as Hq. destruct (c_timer y C t Et) as [-> ->]. done.
    + apply (c_page y C).
    + apply (c_inflight y C).
  - (* the timer fires *)
    unfold advance in E; cbn [timer] in E.
    destruct (debounce_callback_frame d (view y))
      as (Hu & Hr & Hq & Hp & _ & _ & Hs).
    unfold fire_timer, run_search; sys_simpl.
    destruct (snd (debounce_callback d (view y))) eqn:Es; split; sys_simpl;
      try apply (c_observer y C); try (rewrite Hp; apply (c_page y C));
      try (intros Hd; refine (Ht _ _ _ _ _ Hd); [by intros _| done | by right]).
    + apply Forall_app; split; [apply (c_inflight y C)|].
      apply Forall_singleton. unfold request_ok.
      by destruct (blank (t_searchQuery d)).
    + apply (c_inflight y C).
  - (* time passes, the timer is not due *)
    split; sys_simpl; [apply (c_observer y C)| intros _; apply (c_timer y C)
           | apply (c_page y C) | apply (c_inflight y C)].
  - (* time passes, no timer *)
    split; sys_simpl; [apply (c_observer y C)| intros _; apply (c_timer y C)
           | apply (c_page y C) | apply (c_inflight y C)].
Qed.

Lemma step_consistent e y y' :
  consistent y -> step e y = Some y' -> consistent y'.
Proof.
  intros C H. apply step_inv in H as (yh & H & ->).
  eapply commit_consistent, handle_handled; eauto.
Qed.

Lemma mount_consistent : consistent mount.
Proof.
  split; try done.
  - intros t [= <-]. done.
  - apply Forall_singleton. done.
Qed.

Lemma run_app es1 es2 y :
  run (es1 ++ es2) y = y' ← run es1 y; run es2 y'.
Proof.
  revert y. induction es1 as [|e es1 IH]; intros y; simpl; [done|].
  destruct (step e y); simpl; [apply IH|done].
Qed.

Lemma run_consistent es y y' :
  consistent y -> run es y = Some y' -> consistent y'.
Proof.
  revert y. induction es as [|e es IH]; intros y C; simpl.
  - by intros [= <-].
  - destruct (step e y) as [y1|] eqn:E; simpl; [|done].
    apply IH. eapply step_consistent; eauto.
Qed.

(** Every state the mounted component can reach is consistent. *)
Lemma reachable_consistent es y : run es mount = Some y -> consistent y.
Proof. apply run_consistent, mount_consistent. Qed.

(** ** The log of requests *)

Lemma step_issued e y y' :
  step e y = Some y' -> issued y' = issued y ++ sent e y.
Proof.
  intros H. apply step_inv in H as (yh & H & ->). rewrite commit_issued.
  destruct e as [i r| b | | | value | ms]; handle_cases H; sys_simpl;
    unfold sent; rewrite ?app_nil_r; try done.
  all: try (rewrite E, ?E1, ?app_nil_r; done).
  all: unfold advance in *; cbn [timer clock] in *; rewrite E0.
  - rewrite E1. simpl. unfold fire_timer, run_search. cbn [view].
    destruct (debounce_callback_frame d (view y)) as (_&_&_&_&_&_& ->).
    destruct (blank (t_searchQuery d)); sys_simpl; by rewrite ?app_nil_r.
  - rewrite E1. simpl. by rewrite app_nil_r.
  - by rewrite app_nil_r.
Qed.

Lemma run_issued es y y' :
  run es y = Some y' -> exists new, issued y' = issued y ++ new.
Proof.
  revert y. induction es as [|e es IH]; intros y; simpl.
  - intros [= <-]. exists []. by rewrite app_nil_r.
  - destruct (step e y) as [y1|] eqn:E; simpl; [|done]. intros H.
    destruct (IH _ H) as [new ->]. rewrite (step_issued _ _ _ E).
    exists (sent e y ++ new). by rewrite app_assoc.
Qed.

(** ** Identifiers in the accumulated listing *)

Lemma filter_ids_NoDup (f : User -> bool) data :
  NoDup (ids data) -> NoDup (ids (List.filter f data)).
Proof.
  unfold ids. induction data as [|u data IH]; simpl; [done|].
  intros [Hu Hd]%NoDup_cons. destruct (f u); simpl; [|by apply IH].
  apply NoDup_cons. split; [|by apply IH].
  intros (v & Hv & Hin)%list_elem_of_fmap. apply Hu.
  apply list_elem_of_fmap. exists v. split; [done|].
  apply list_elem_of_In, filter_In in Hin as [Hin _]. by apply list_elem_of_In.
Qed.

Lemma merge_page_NoDup prevUsers data :
  NoDup (ids prevUsers) -> NoDup (ids data) ->
  NoDup (ids (merge_page prevUsers data)).
Proof.
  intros Hp Hd. unfold merge_page, ids. rewrite map_app.
  apply NoDup_app. split; [done|]. split; [|by apply filter_ids_NoDup].
  intros x Hx (v & -> & Hin)%list_elem_of_fmap.
  apply list_elem_of_In, filter_In in Hin as [_ Hin].
  apply negb_true_iff, bool_decide_eq_false in Hin. apply Hin.
  by apply elem_of_list_to_set.
Qed.

Lemma fetchUsers_settle_NoDup pageNum o s :
  NoDup (ids (users s)) ->
  (forall data, payload o = inl data -> NoDup (ids data)) ->
  NoDup (ids (users (fetchUsers_settle pageNum o s))).
Proof.
  intros Hs Hd. unfold fetchUsers_settle.
  destruct (payload o) as [data|err]; simpl; [|done].
  destruct (Z.of_nat (length data) =? 0); simpl; [done|].
  destruct (pageNum =? 1); simpl; [by apply Hd|].
  apply merge_page_NoDup; [done|by apply Hd].
Qed.

(** C1, as stated, fails: the filter compares a new page with the listing
    only, so an identifier that a page itself repeats is kept twice, on page
    1 (stored as it is) and on later pages alike. *)
Lemma listing_repeats_id_within_page :
  ~ NoDup (ids (users (load_pages
       [(1, success [sample_user 7; sample_user 7])] initial_view)))
  /\ ~ NoDup (ids (users (load_pages
       [(1, success [sample_user 1]);
        (2, success [sample_user 7; sample_user 7])] initial_view))).
Proof.
  split; vm_compute; intros H.
  - apply NoDup_cons in H as [H _]. apply H. left.
  - apply NoDup_cons in H as [_ H]. apply NoDup_cons in H as [H _].
    apply H. left.
Qed.

(** C1 (amended): for every sequence of page loads in which no single page
    repeats an identifier, the accumulated listing never contains two entries
    with the same identifier, whatever the overlap between pages; and when
    page 1 returns identifiers 1-30 and page 2 returns 25-54, the listing
    (and the displayed list) is 1-54 in order, 54 entries. *)
Theorem listing_ids_unique loads s :
  NoDup (ids (users s)) ->
  (forall pageNum o data,
     (pageNum, o) ∈ loads -> payload o = inl data -> NoDup (ids data)) ->
  NoDup (ids (users (load_pages loads s)))
  /\ (let s54 := load_pages [(1, success (sample_users 1 30));
                            (2, success (sample_users 25 30))] initial_view in
      users s54 = sample_users 1 54
      /\ filteredUsers s54 = sample_users 1 54
      /\ length (users s54) = 54%nat
      /\ NoDup (ids (users s54))).
Proof.
  intros Hs Hl. split.
  - revert s Hs. induction loads as [|[n o] loads IH]; intros s Hs; [done|].
    simpl. apply IH.
    + intros n' o' data Hin. apply (Hl n' o' data). by right.
    + apply fetchUsers_settle_NoDup; [done|].
      intros data. apply (Hl n o data). by left.
  - cbv zeta. repeat (split; [by vm_compute|]).
    apply (bool_decide_unpack _). by vm_compute.
Qed.

Lemma listing_ids_unique_witness :
  NoDup (ids (users (load_pages
     [(1, success (sample_users 1 3)); (2, success (sample_users 2 3))]
     initial_view))).
Proof.
  apply (listing_ids_unique
           [(1, success (sample_users 1 3)); (2, success (sample_users 2 3))]
           initial_view).
  - vm_compute. constructor.
  - intros pageNum o data Hin.
    apply elem_of_cons in Hin as [[= -> ->]|Hin].
    { intros [= <-]. apply (bool_decide_unpack _). by vm_compute. }
    apply elem_of_cons in Hin as [[= -> ->]|Hin].
    { intros [= <-]. apply (bool_decide_unpack _). by vm_compute. }
    by apply elem_of_nil in Hin.
Defined.

(** ** Settling a request *)

Lemma step_settle_page y i pageNum o :
  inflight y !! i = Some (PageRequest pageNum) ->
  step (Settle i (PageOutcome o)) y
  = Some (commit (settled i (fetchUsers_settle pageNum o (view y)) y)).
Proof. intros H. unfold step, handle. by rewrite H. Qed.

Lemma step_settle_search y i query users_c o :
  inflight y !! i = Some (SearchRequest query users_c) ->
  step (Settle i (SearchOutcome o)) y
  = Some (commit (settled i (searchUsers_settle users_c query o (view y)) y)).
Proof. intros H. unfold step, handle. by rewrite H. Qed.

Lemma payload_success {A} status (body : A) :
  ok status = true -> payload (Response status body) = inl body.
Proof. intros H. unfold payload. by rewrite H. Qed.

Lemma length_zero_iff (data : list User) :
  (Z.of_nat (length data) =? 0) = true <-> data = [].
Proof.
  destruct data; simpl; [done|]. split; done.
Qed.

Lemma fetchUsers_settle_data pageNum o data s :
  payload o = inl data -> data <> [] ->
  let s' := fetchUsers_settle pageNum o s in
  users s' = (if pageNum =? 1 then data else merge_page (users s) data)
  /\ filteredUsers s' = users s'
  /\ page s' = pageNum
  /\ isInitialized s' = (if pageNum =? 1 then true else isInitialized s)
  /\ loading s' = false.
Proof.
  intros Hp Hd. unfold fetchUsers_settle. rewrite Hp.
  destruct (Z.of_nat (length data) =? 0) eqn:E.
  { by apply length_zero_iff in E. }
  by destruct (pageNum =? 1).
Qed.

Lemma fetchUsers_settle_empty pageNum o s :
  payload o = inl [] ->
  fetchUsers_settle pageNum o s = setLoading false (setHasMore false s).
Proof. intros Hp. unfold fetchUsers_settle. by rewrite Hp. Qed.

Lemma fetchUsers_settle_error pageNum o err s :
  payload o = inr err ->
  fetchUsers_settle pageNum o s
  = setLoading false
      (setError (Some (error_message "Failed to fetch users" err)) s).
Proof. intros Hp. unfold fetchUsers_settle. by rewrite Hp. Qed.

Lemma searchUsers_settle_data users_c query o data s :
  payload o = inl data ->
  searchUsers_settle users_c query o s
  = setIsSearching false
      (setFilteredUsers (items_or_empty data)
         (setSearchResults (items_or_empty data) s)).
Proof. intros Hp. unfold searchUsers_settle. by rewrite Hp. Qed.

(** ** Out-of-order responses *)

Lemma two_searches_trace :
  exists y yB yA,
    run two_searches mount = Some y
    /\ inflight y = [SearchRequest "a" [sample_user 1];
                     SearchRequest "ab" [sample_user 1]]
    /\ step (Settle 1 (answer [sample_user 20])) y = Some yB
    /\ step (Settle 0 (answer [sample_user 10])) yB = Some yA
    /\ searchQuery (view yA) = "ab"
    /\ searchResults (view yB) = [sample_user 20]
    /\ searchResults (view yA) = [sample_user 10]
    /\ filteredUsers (view yA) = [sample_user 10].
Proof.
  eexists _, _, _. split; [by vm_compute|]. split; [by vm_compute|].
  split; [by vm_compute|]. split; [by vm_compute|]. by vm_compute.
Qed.

(** C2, as stated, fails: nothing tags or cancels a request, so the answer
    to "a" arriving after the answer to "ab" replaces the results of "ab". *)
Lemma stale_response_overwrites : ~ stale_response_law.
Proof.
  intros Law.
  destruct two_searches_trace as (y & yB & yA & Hy & _ & HB & HA & _ & RB & RA & _).
  assert (Hlt : (0 < 1)%nat) by lia.
  pose proof (Law _ _ _ _ _ _ _ _ Hy Hlt HB HA) as H.
  unfold results in H. rewrite RA, RB in H. discriminate H.
Qed.

(** C2 (amended): responses are applied in the order they arrive, with no
    guard against out-of-order resolution. When [A] was sent before [B] and
    [B] settles first, a later successful answer to [A] is applied on top of
    the state [B] produced: for a search the result set and the displayed
    list become [A]'s items; for a non-empty page the listing is replaced
    (page 1) or extended (later pages) by [A]'s data and the page number
    becomes [A]'s. *)
Theorem late_response_is_applied y i j rb yB status :
  (i < j)%nat ->
  step (Settle j rb) y = Some yB ->
  ok status = true ->
  (forall query users_c data,
     inflight y !! i = Some (SearchRequest query users_c) ->
     exists yA,
       step (Settle i (SearchOutcome (Response status data))) yB = Some yA
       /\ searchResults (view yA) = items_or_empty data
       /\ filteredUsers (view yA) = items_or_empty data)
  /\ (forall pageNum data,
     inflight y !! i = Some (PageRequest pageNum) -> data <> [] ->
     exists yA,
       step (Settle i (PageOutcome (Response status data))) yB = Some yA
       /\ users (view yA)
          = (if pageNum =? 1 then data
             else merge_page (users (view yB)) data)
       /\ filteredUsers (view yA) = users (view yA)
       /\ page (view yA) = pageNum).
Proof.
  intros Hlt HB Hok.
  assert (Hi : inflight yB !! i = inflight y !! i).
  { apply step_inv in HB as (yh & HB & ->). rewrite commit_inflight.
    handle_cases HB; sys_simpl; by apply list_lookup_delete_lt. }
  split.
  - intros query users_c data Hq. rewrite <- Hi in Hq.
    eexists. split; [by apply step_settle_search|].
    rewrite commit_view. sys_simpl.
    by rewrite (searchUsers_settle_data _ _ _ data)
      by by apply payload_success.
  - intros pageNum data Hq Hd. rewrite <- Hi in Hq.
    eexists. split; [by apply step_settle_page|].
    rewrite commit_view. sys_simpl.
    destruct (fetchUsers_settle_data pageNum (Response status data) data
                (view yB)) as (-> & -> & -> & _); auto using payload_success.
Qed.

Lemma late_response_is_applied_witness :
  exists yA,
    step (Settle 0 (answer [sample_user 10])) after_answer_ab = Some yA
    /\ searchResults (view yA) = [sample_user 10]
    /\ filteredUsers (view yA) = [sample_user 10].
Proof.
  assert (Hlt : (0 < 1)%nat) by lia.
  assert (HB : step (Settle 1 (answer [sample_user 20])) after_two_searches
               = Some after_answer_ab) by (vm_compute; reflexivity).
  assert (Hok : ok 200 = true) by reflexivity.
  assert (Hq : inflight after_two_searches !! 0%nat
               = Some (SearchRequest "a" [sample_user 1])) by reflexivity.
  exact (proj1 (late_response_is_applied after_two_searches 0 1 _
                  after_answer_ab 200 Hlt HB Hok)
           "a" [sample_user 1] {| items := Some [sample_user 10] |} Hq).
Defined.

(** ** Exhaustion *)

Lemma fetchUsers_settle_hasMore pageNum o s :
  hasMore s = false -> hasMore (fetchUsers_settle pageNum o s) = false.
Proof.
  intros H. unfold fetchUsers_settle.
  destruct (payload o) as [data|err]; simpl; [|done].
  destruct (Z.of_nat (length data) =? 0); simpl; [done|].
  by destruct (pageNum =? 1).
Qed.

(** Nothing ever sets [hasMore] back to [true]. *)
Lemma step_hasMore e y y' :
  step e y = Some y' -> hasMore (view y) = false -> hasMore (view y') = false.
Proof.
  intros H Hm. apply step_inv in H as (yh & H & ->). rewrite commit_view.
  destruct e as [i r| b | | | value | ms]; handle_cases H; sys_simpl;
    try done.
  - by apply fetchUsers_settle_hasMore.
  - by destruct (searchUsers_settle_users users_c query o (view y))
      as (_&_&_&_& -> &_).
  - by destruct (fetchUsers_begin_frame z (view y)) as (_&_&_&_&_& -> &_).
  - unfold fire_timer, run_search. cbn [view].
    destruct (debounce_callback_frame d (view y)) as (_&_&_&_& Hh &_).
    destruct (snd _); sys_simpl; by rewrite Hh.
Qed.

(** Once the listing is exhausted the only page an event asks for is page 1
    (through the retry button). *)
Lemma exhausted_sent e y y' pageNum :
  consistent y -> step e y = Some y' -> hasMore (view y) = false ->
  PageRequest pageNum ∈ sent e y -> pageNum = 1.
Proof.
  intros C H Hm Hin. apply step_inv in H as (yh & H & _).
  destruct e as [i r| b | | | value | ms]; simpl in Hin;
    try by apply elem_of_nil in Hin.
  - handle_cases H.
    + destruct (observer_in_sync y i C E E0) as (Hh & _).
      unfold observer_callback in E1. rewrite Hh, Hm, andb_false_r in E1.
      done.
    + by apply elem_of_nil in Hin.
  - by apply list_elem_of_singleton in Hin as [= ->].
  - destruct (timer y) as [t|]; [|by apply elem_of_nil in Hin].
    destruct (_ && _); [|by apply elem_of_nil in Hin].
    by apply list_elem_of_singleton in Hin.
Qed.

Lemma exhausted_run es y y' :
  consistent y -> run es y = Some y' -> hasMore (view y) = false ->
  hasMore (view y') = false
  /\ exists new, issued y' = issued y ++ new
       /\ forall pageNum, PageRequest pageNum ∈ new -> pageNum = 1.
Proof.
  revert y. induction es as [|e es IH]; intros y C; simpl.
  - intros [= <-] Hm. split; [done|]. exists []. rewrite app_nil_r.
    split; [done|]. intros n Hn. by apply elem_of_nil in Hn.
  - destruct (step e y) as [y1|] eqn:E; simpl; [|done]. intros H Hm.
    destruct (IH y1) as (Hm' & new & Hnew & Hp);
      [by eapply step_consistent | done | by eapply step_hasMore |].
    split; [done|]. exists (sent e y ++ new). split.
    + by rewrite Hnew, (step_issued _ _ _ E), app_assoc.
    + intros n [Hn|Hn]%elem_of_app; [by eapply exhausted_sent|by apply Hp].
Qed.

(** C3: when the load of page [n] succeeds with an empty result the listing
    is marked exhausted, and whatever happens afterwards in that view
    instance, it stays exhausted and no request for page [n+1] or a later
    page is sent. *)
Theorem exhausted_stops_paging es1 y1 i n status :
  run es1 mount = Some y1 ->
  inflight y1 !! i = Some (PageRequest n) ->
  ok status = true ->
  exists y2,
    step (Settle i (PageOutcome (Response status []))) y1 = Some y2
    /\ hasMore (view y2) = false
    /\ forall es2 y3, run es2 y2 = Some y3 ->
         hasMore (view y3) = false
         /\ exists new, issued y3 = issued y2 ++ new
              /\ forall m, PageRequest m ∈ new -> ~ n < m.
Proof.
  intros H1 Hi Hok. pose proof (reachable_consistent _ _ H1) as C1.
  eexists. split; [by apply step_settle_page|].
  assert (Hn : 1 <= n).
  { assert (request_ok (PageRequest n)) as Hr; [|done].
    eapply Forall_forall; [apply (c_inflight y1 C1)|].
    by eapply list_elem_of_lookup_2. }
  assert (Hm : hasMore (view (commit (settled i
      (fetchUsers_settle n (Response status []) (view y1)) y1))) = false).
  { rewrite commit_view. sys_simpl.
    by rewrite fetchUsers_settle_empty by by apply payload_success. }
  split; [done|]. intros es2 y3 H3.
  assert (C2 : consistent (commit (settled i
      (fetchUsers_settle n (Response status []) (view y1)) y1))).
  { eapply step_consistent; [done|]. by apply step_settle_page. }
  destruct (exhausted_run es2 _ y3 C2 H3 Hm) as (Hm3 & new & Hnew & Hp).
  split; [done|]. exists new. split; [done|].
  intros m Hin. rewrite (Hp m Hin). lia.
Qed.

Lemma exhausted_stops_paging_witness :
  exists y2,
    step (Settle 0 (PageOutcome (Response 200 []))) after_paging_started
    = Some y2
    /\ hasMore (view y2) = false
    /\ forall es2 y3, run es2 y2 = Some y3 ->
         hasMore (view y3) = false
         /\ exists new, issued y3 = issued y2 ++ new
              /\ forall m, PageRequest m ∈ new -> ~ 2 < m.
Proof.
  apply (exhausted_stops_paging paging_started after_paging_started 0 2 200).
  - vm_compute. reflexivity.
  - reflexivity.
  - reflexivity.
Defined.

(** ** The trigger *)

(** C4, as stated, fails: [loading] is raised for page 1 only, so while page
    2 is awaited the observer is still armed and asks for page 2 again. *)
Lemma trigger_fires_during_page_load : ~ trigger_law.
Proof.
  intros Law.
  assert (H1 : run paging_started mount = Some after_paging_started)
    by (vm_compute; reflexivity).
  destruct (step (Intersect true) after_paging_started) as [y'|] eqn:H2;
    [|by vm_compute in H2].
  destruct (Law _ _ _ _ H1 H2) as [_ Hle].
  revert Hle. injection H2 as <-. vm_compute. lia.
Qed.

(** C4 (amended): the observer asks for a page only when its element is
    visible, the listing is not exhausted, the search query is empty and
    the [loading] flag is clear, and the page it asks for is the one after
    the current page. The flag is raised by calls for page 1 only: a call
    for a later page leaves it as it is. *)
Theorem trigger_requests_only_when es y isIntersecting y' :
  run es mount = Some y ->
  step (Intersect isIntersecting) y = Some y' ->
  issued y' <> issued y ->
  isIntersecting = true
  /\ hasMore (view y) = true
  /\ searchQuery (view y) = ""
  /\ loading (view y) = false
  /\ issued y' = issued y ++ [PageRequest (page (view y) + 1)]
  /\ forall pageNum s,
       pageNum <> 1 -> loading (fetchUsers_begin pageNum s) = loading s.
Proof.
  intros Hy H Hne. pose proof (reachable_consistent _ _ Hy) as C.
  pose proof (step_issued _ _ _ H) as Hi.
  apply step_inv in H as (yh & H & _). handle_cases H.
  - simpl in Hi. rewrite E, E1 in Hi.
    destruct (observer_in_sync y i C E E0) as (Hh & Hp & Hl & Hq & _).
    unfold observer_callback in E1.
    destruct isIntersecting; simpl in E1; [|done].
    destruct (cb_hasMore i) eqn:Ec; [|done]. injection E1 as <-.
    rewrite <- Hh, <- Hp. repeat split; try done.
    intros pageNum s Hn. unfold fetchUsers_begin.
    destruct (pageNum =? 1) eqn:En; [|done]. apply Z.eqb_eq in En. done.
  - simpl in Hi. rewrite E, E1, app_nil_r in Hi. done.
Qed.

Lemma trigger_requests_only_when_witness :
  exists y',
    step (Intersect true) after_paging_started = Some y'
    /\ searchQuery (view after_paging_started) = ""
    /\ loading (view after_paging_started) = false
    /\ issued y' = issued after_paging_started ++ [PageRequest 2].
Proof.
  assert (H1 : run paging_started mount = Some after_paging_started)
    by (vm_compute; reflexivity).
  eexists. split; [vm_compute; reflexivity|].
  refine ((fun H => conj (proj1 (proj2 (proj2 H)))
             (conj (proj1 (proj2 (proj2 (proj2 H))))
                (proj1 (proj2 (proj2 (proj2 (proj2 H)))))))
          (trigger_requests_only_when paging_started after_paging_started
             true _ H1 _ _)).
  - vm_compute. reflexivity.
  - vm_compute. discriminate.
Defined.

(** ** Failures of a page load, and retry *)

(** The two ways a request fails: it rejects, or it answers with a status
    outside 200-299. *)
Lemma payload_failure {A} (o : Outcome A) err :
  payload o = inr err <->
  o = Rejected err
  \/ exists status body,
       o = Response status body /\ ok status = false
       /\ err = ErrorObject
                  ("HTTP error! status: " +:+ number_to_string status).
Proof.
  unfold payload. destruct o as [e|status body].
  - split; [intros [= ->]; by left|].
    intros [[= ->]|(? & ? & ? & _)]; done.
  - destruct (ok status) eqn:E.
    + split; [done|]. intros [?|(? & ? & [= <- _] & ? & _)]; congruence.
    + split.
      * intros [= <-]. right. by exists status, body.
      * by intros [?|(? & ? & [= <- _] & _ & ->)].
Qed.



(** ** The debounce timer *)

Lemma commit_timer y :
  timer (commit y)
  = if decide ((searchQuery (view y), users_ref (view y)) = effect_deps y)
    then timer y
    else Some {| deadline := clock y + debounce_delay;
                 t_searchQuery := searchQuery (view y);
                 t_users := users (view y) |}.
Proof. unfold commit, run_debounce_effect; simpl. by case_decide. Qed.

Lemma search_input_shown_initialized s :
  search_input_shown s = isInitialized s.
Proof. unfold search_input_shown, render. by destruct (isInitialized s). Qed.

(** An edit that changes the query cancels the pending timer and sets a new
    one, due [debounce_delay] later. *)
Lemma step_input y value :
  consistent y -> search_input_shown (view y) = true ->
  value <> searchQuery (view y) ->
  exists y1, step (Input value) y = Some y1
    /\ armed y1 value
    /\ view y1 = setSearchQuery value (view y)
    /\ issued y1 = issued y.
Proof.
  intros C Hs Hne.
  assert (H : step (Input value) y
              = Some (commit (set_view (setSearchQuery value (view y)) y))).
  { unfold step, handle. by rewrite Hs. }
  eexists. split; [exact H|].
  split; [|by rewrite commit_view, commit_issued].
  split; [by eapply step_consistent|].
  rewrite commit_view, commit_timer, commit_clock. sys_simpl.
  rewrite search_input_shown_initialized in *.
  split; [done|]. split; [done|].
  rewrite (c_deps y C). case_decide as E; [|done].
  by injection E as E.
Qed.

(** Time passing before the timer is due changes nothing but the clock. *)
Lemma step_wait_idle y query ms :
  armed y query -> 0 <= ms < debounce_delay ->
  exists y1, step (Wait ms) y = Some y1
    /\ consistent y1
    /\ view y1 = view y
    /\ issued y1 = issued y.
Proof.
  intros (C & Hs & Hq & Ht) Hms.
  assert (H : step (Wait ms) y = Some (commit (advance ms y))).
  { unfold step, handle.
    destruct (0 <=? ms) eqn:E0; [|lia]. cbn [advance timer clock].
    rewrite Ht. cbn [deadline].
    by destruct (clock y + debounce_delay <=? clock y + ms) eqn:E1; [lia|]. }
  eexists. split; [exact H|].
  split; [by eapply step_consistent|].
  by rewrite commit_view, commit_issued.
Qed.

(** When the timer is due its callback runs: a non-blank query is searched
    for, a blank one resets the search state. *)
Lemma step_wait_fire y query ms :
  armed y query -> debounce_delay <= ms ->
  exists y1, step (Wait ms) y = Some y1
    /\ timer y1 = None
    /\ issued y1
       = issued y
         ++ (if blank query then []
             else [SearchRequest query (users (view y))])
    /\ view y1
       = fst (debounce_callback
                {| deadline := clock y + debounce_delay;
                   t_searchQuery := query; t_users := users (view y) |}
                (view y)).
Proof.
  intros (C & Hs & Hq & Ht) Hms. unfold debounce_delay in *.
  set (t := {| deadline := clock y + 500; t_searchQuery := query;
               t_users := users (view y) |}) in *.
  assert (H : step (Wait ms) y = Some (commit (fire_timer t (advance ms y)))).
  { unfold step, handle.
    destruct (0 <=? ms) eqn:E0; [|lia]. cbn [advance timer clock].
    rewrite Ht. subst t. cbn [deadline].
    by destruct (clock y + 500 <=? clock y + ms) eqn:E1; [|lia]. }
  eexists. split; [exact H|].
  pose proof (step_issued _ _ _ H) as Hi. simpl in Hi. rewrite Ht in Hi.
  subst t. cbn [deadline t_searchQuery t_users] in *.
  destruct (clock y + 500 <=? clock y + ms) eqn:E1; [|lia].
  split; [|split].
  - rewrite commit_timer. unfold fire_timer, run_search. cbn [advance view].
    match goal with |- context [debounce_callback ?t ?s] =>
      destruct (debounce_callback_frame t s) as (_ & Hr & Hsq & _) end.
    destruct (snd _); sys_simpl; rewrite Hr, Hsq, (c_deps y C);
      by case_decide.
  - rewrite Hi. by destruct (blank query).
  - rewrite commit_view. unfold fire_timer, run_search. cbn [advance view].
    by destruct (snd _).
Qed.

(** ** Bursts of edits *)

(** C7, as stated, fails: a burst that ends with a blank text ("a" typed
    and erased 100 ms later) sends no request at all. *)
Lemma burst_ending_blank_sends_nothing : ~ debounce_law.
Proof.
  intros Law.
  destruct (Law page_one_loaded after_page_one "a" [(100, "")]
              after_typing_and_erasing after_erasing_pause) as [users_c H].
  - vm_compute. reflexivity.
  - done.
  - cbn [within_window]. unfold debounce_delay.
    split; [lia|]. split; [discriminate|done].
  - vm_compute. reflexivity.
  - vm_compute. reflexivity.
  - vm_compute in H. discriminate H.
Qed.

Lemma burst_run y v0 rest :
  consistent y -> search_input_shown (view y) = true ->
  v0 <> searchQuery (view y) -> within_window v0 rest ->
  exists y1, run (burst v0 rest) y = Some y1
    /\ armed y1 (final_value v0 rest)
    /\ issued y1 = issued y
    /\ users (view y1) = users (view y).
Proof.
  revert y v0. induction rest as [|[gap value] rest IH]; intros y v0 C Hs Hne Hw.
  - destruct (step_input y v0 C Hs Hne) as (y1 & H1 & Ha & Hv & Hi).
    exists y1. unfold burst; simpl. rewrite H1; simpl.
    by rewrite Hv.
  - destruct Hw as (Hgap & Hne' & Hw).
    destruct (step_input y v0 C Hs Hne) as (y1 & H1 & Ha & Hv & Hi).
    destruct (step_wait_idle y1 v0 gap Ha Hgap) as (y2 & H2 & C2 & Hv2 & Hi2).
    destruct Ha as (_ & Hs1 & Hq1 & _).
    destruct (IH y2 value C2) as (y3 & H3 & Ha3 & Hi3 & Hu3);
      [by rewrite Hv2|by rewrite Hv2, Hq1|done|].
    exists y3. split; [|split; [done|split]].
    + change (burst v0 ((gap, value) :: rest))
        with (Input v0 :: Wait gap :: burst value rest).
      cbn [run]. rewrite H1. cbn [mbind option_bind]. rewrite H2. exact H3.
    + by rewrite Hi3, Hi2.
    + by rewrite Hu3, Hv2, Hv.
Qed.

(** C7 (amended): for every burst of edits, each one changing the text and
    arriving less than 500 ms after the previous one, nothing is sent during
    the burst, the one pending timer is the one set by the last edit, and
    when it is due at most one search request is sent: exactly one, for the
    final text, when that text is not blank, and none when it is blank. *)
Theorem debounce_burst es y v0 rest ms :
  run es mount = Some y ->
  search_input_shown (view y) = true ->
  v0 <> searchQuery (view y) ->
  within_window v0 rest ->
  debounce_delay <= ms ->
  exists y1 y2,
    run (burst v0 rest) y = Some y1
    /\ issued y1 = issued y
    /\ timer y1 = Some {| deadline := clock y1 + debounce_delay;
                          t_searchQuery := final_value v0 rest;
                          t_users := users (view y) |}
    /\ step (Wait ms) y1 = Some y2
    /\ issued y2
       = issued y
         ++ (if blank (final_value v0 rest) then []
             else [SearchRequest (final_value v0 rest) (users (view y))])
    /\ timer y2 = None.
Proof.
  intros Hy Hs Hne Hw Hms. pose proof (reachable_consistent _ _ Hy) as C.
  destruct (burst_run y v0 rest C Hs Hne Hw) as (y1 & H1 & Ha & Hi & Hu).
  destruct (step_wait_fire y1 _ ms Ha Hms) as (y2 & H2 & Ht2 & Hi2 & _).
  exists y1, y2. destruct Ha as (_ & _ & _ & Ht).
  rewrite Hu in Ht, Hi2. rewrite Hi in Hi2. done.
Qed.

Lemma debounce_burst_witness :
  exists y1 y2,
    run (burst "t" [(120, "to"); (90, "tor")]) after_page_one = Some y1
    /\ step (Wait 500) y1 = Some y2
    /\ issued y2
       = issued after_page_one ++ [SearchRequest "tor" [sample_user 1]].
Proof.
  destruct (debounce_burst page_one_loaded after_page_one "t"
              [(120, "to"); (90, "tor")] 500)
    as (y1 & y2 & H1 & _ & _ & H2 & Hi & _).
  - vm_compute. reflexivity.
  - reflexivity.
  - simpl. discriminate.
  - cbn [within_window]. unfold debounce_delay.
    split; [lia|]. split; [discriminate|].
    split; [lia|]. split; [discriminate|done].
  - unfold debounce_delay. lia.
  - exists y1, y2. done.
Defined.

(** ** Clearing the query *)

Lemma search_event_users e y y' :
  step e y = Some y' -> search_event e = true ->
  users (view y') = users (view y).
Proof.
  intros H He. apply step_inv in H as (yh & H & ->). rewrite commit_view.
  destruct e as [i r| b | | | value | ms]; try done; handle_cases H;
    sys_simpl; try done.
  - by destruct (searchUsers_settle_users users_c query o (view y)) as (-> & _).
  - unfold fire_timer, run_search. cbn [view].
    destruct (debounce_callback_frame d (view y)) as (Hu & _).
    by destruct (snd _).
Qed.

Lemma search_run_users es y y' :
  run es y = Some y' -> forallb search_event es = true ->
  users (view y') = users (view y).
Proof.
  revert y. induction es as [|e es IH]; intros y; simpl.
  - by intros [= <-].
  - destruct (step e y) as [y1|] eqn:E; simpl; [|done].
    intros H [He Hes]%andb_true_iff.
    rewrite (IH _ H Hes). by eapply search_event_users.
Qed.

(** C6, as stated, fails: a text typed into the box, the only way to make
    the query whitespace-only, changes nothing but the text until the
    debounce timer runs; right after a blank is typed over "torvalds" its
    results are still displayed. *)
Lemma typed_blank_not_immediate : ~ immediate_clear_law.
Proof.
  intros Law.
  assert (H : cleared after_page_one after_searching after_typing_blank).
  { apply (Law page_one_loaded after_page_one searching after_searching " ").
    - vm_compute. reflexivity.
    - reflexivity.
    - vm_compute. reflexivity.
    - reflexivity.
    - discriminate.
    - vm_compute. reflexivity. }
  destruct H as (_ & _ & Hf & _). vm_compute in Hf. discriminate Hf.
Qed.

(** C6 (amended): whatever was searched for since [y0], a click on a clear
    button at once leaves search mode, drops the search result set, sends no
    search request and shows exactly the accumulated listing of [y0]. A
    blank (empty or whitespace-only) text typed into the box changes only the
    text at first: while less than 500 ms pass the state stays as the edit
    left it, and when the debounce timer of that edit runs the same clearing
    takes place, with no search request sent at any point. *)
Theorem clearing_restores_listing es0 y0 es y :
  run es0 mount = Some y0 ->
  forallb search_event es = true ->
  run es y0 = Some y ->
  isInitialized (view y) = true ->
  (truthy (searchQuery (view y)) = true ->
   exists y', step ClickClear y = Some y'
     /\ cleared y0 y y'
     /\ searchQuery (view y') = ""
     /\ error (view y') = None)
  /\ (forall query, blank query = true -> query <> searchQuery (view y) ->
      exists y1,
        step (Input query) y = Some y1
        /\ view y1 = setSearchQuery query (view y)
        /\ issued y1 = issued y
        /\ (forall ms, 0 <= ms < debounce_delay ->
             exists y1', step (Wait ms) y1 = Some y1'
               /\ view y1' = view y1 /\ issued y1' = issued y)
        /\ (forall ms, debounce_delay <= ms ->
             exists y2, step (Wait ms) y1 = Some y2 /\ cleared y0 y y2)).
Proof.
  intros H0 Hes Hy Hinit.
  pose proof (reachable_consistent _ _ H0) as C0.
  pose proof (run_consistent _ _ _ C0 Hy) as C.
  pose proof (search_run_users _ _ _ Hy Hes) as Hu.
  split.
  - intros Hq.
    assert (H : step ClickClear y
                = Some (commit (set_view
                          (clearSearch (users (view y)) (view y)) y))).
    { unfold step, handle, clear_button_shown, render.
      by rewrite Hinit, Hq. }
    eexists. split; [exact H|].
    unfold cleared. rewrite commit_view, commit_issued. sys_simpl.
    simpl. by rewrite Hu.
  - intros query Hb Hne.
    destruct (step_input y query C) as (y1 & H1 & Ha & Hv & Hi);
      [by rewrite search_input_shown_initialized|done|].
    exists y1. repeat (split; [done|]). split.
    + intros ms Hms.
      destruct (step_wait_idle y1 query ms Ha Hms) as (y1' & H' & _ & Hv' & Hi').
      exists y1'. by rewrite Hi', Hi.
    + intros ms Hms.
      destruct (step_wait_fire y1 query ms Ha Hms)
        as (y2 & H2 & _ & Hi2 & Hv2).
      exists y2. split; [done|].
      rewrite Hb, app_nil_r in Hi2. unfold cleared. rewrite Hv2, Hi2, Hi.
      unfold debounce_callback. cbn [t_searchQuery t_users].
      unfold blank in Hb. apply negb_true_iff in Hb. rewrite Hb.
      simpl. by rewrite Hv, <- Hu.
Qed.

Lemma clearing_restores_listing_witness :
  exists y',
    step ClickClear after_searching = Some y'
    /\ filteredUsers (view y') = [sample_user 1]
    /\ searchResults (view y') = []
    /\ issued y' = issued after_searching.
Proof.
  destruct (clearing_restores_listing page_one_loaded after_page_one
              searching after_searching) as [Hc _].
  - vm_compute. reflexivity.
  - reflexivity.
  - vm_compute. reflexivity.
  - reflexivity.
  - destruct Hc as (y' & H & (_ & Hr & Hf & _ & Hi) & _); [reflexivity|].
    exists y'. done.
Defined.

(** ** Answers to a search *)

(** C8, as stated, fails: the handler tests the query its request was sent
    with, never the text now in the box, so when the box has been emptied
    before the failure arrives the display does not fall back to the listing:
    the results of "torvalds" stay on display. *)
Lemma search_failure_never_falls_back : ~ search_failure_law.
Proof.
  intros Law.
  destruct (Law (page_one_loaded ++ searching ++ second_search ++ [Input ""])
              after_erasing_ab 0%nat "ab" [sample_user 1]
              (Rejected (ErrorObject "Failed to fetch"))
              (ErrorObject "Failed to fetch") after_failed_ab) as [_ H].
  - vm_compute. reflexivity.
  - reflexivity.
  - reflexivity.
  - vm_compute. reflexivity.
  - vm_compute in H. discriminate H.
Qed.

(** C8 (amended): when a search request fails, [error] carries the message,
    the search result set is emptied, and the displayed list is left exactly
    as it was, whatever the text in the box has become since the request was
    sent: the last results shown, if any, remain visible and the screen is
    never blanked. The failure handler itself never puts the accumulated
    listing back: the query it tests is the one the request was sent with,
    which is not blank. *)
Theorem search_failure_keeps_display es y i query users_c o err :
  run es mount = Some y ->
  inflight y !! i = Some (SearchRequest query users_c) ->
  payload o = inr err ->
  exists y',
    step (Settle i (SearchOutcome o)) y = Some y'
    /\ error (view y') = Some (error_message "Failed to search users" err)
    /\ searchResults (view y') = []
    /\ filteredUsers (view y') = filteredUsers (view y)
    /\ searchQuery (view y') = searchQuery (view y)
    /\ users (view y') = users (view y)
    /\ isSearching (view y') = false
    /\ blank query = false.
Proof.
  intros Hy Hi Hp. pose proof (reachable_consistent _ _ Hy) as C.
  assert (Hb : blank query = false).
  { assert (request_ok (SearchRequest query users_c)) as Hr; [|done].
    eapply Forall_forall; [apply (c_inflight y C)|].
    by eapply list_elem_of_lookup_2. }
  eexists. split; [by apply step_settle_search|].
  rewrite commit_view. sys_simpl. unfold searchUsers_settle.
  rewrite Hp, Hb. simpl. done.
Qed.

(** C9: when a search request succeeds, the search result set becomes the
    [items] of the answer (nothing when [items] is absent), the displayed
    list becomes the search result set, and the accumulated listing, the very
    same array, is left as it was; typing "torvalds" and receiving one user
    shows exactly that user over an untouched listing. *)
Theorem search_success_replaces_results y i query users_c status data :
  inflight y !! i = Some (SearchRequest query users_c) ->
  ok status = true ->
  (exists y',
     step (Settle i (SearchOutcome (Response status data))) y = Some y'
     /\ searchResults (view y') = items_or_empty data
     /\ filteredUsers (view y') = searchResults (view y')
     /\ users (view y') = users (view y)
     /\ users_ref (view y') = users_ref (view y)
     /\ error (view y') = error (view y)
     /\ (items data = None \/ items data = Some [] ->
         searchResults (view y') = []))
  /\ run searching after_page_one = Some after_searching
  /\ filteredUsers (view after_searching) = [sample_user 1024025]
  /\ searchResults (view after_searching) = [sample_user 1024025]
  /\ users (view after_searching) = users (view after_page_one).
Proof.
  intros Hi Hok. split; [|by vm_compute].
  eexists. split; [by apply step_settle_search|].
  rewrite commit_view. sys_simpl.
  rewrite (searchUsers_settle_data _ _ _ data) by by apply payload_success.
  simpl. repeat (split; [done|]).
  unfold items_or_empty. by intros [-> | ->].
Qed.

Lemma search_success_replaces_results_witness :
  exists y',
    step (Settle 0 (answer [sample_user 1024025]))
      (default mount (run [Input "torvalds"; Wait 500] after_page_one))
    = Some y'
    /\ searchResults (view y') = [sample_user 1024025]
    /\ filteredUsers (view y') = [sample_user 1024025].
Proof.
  destruct (search_success_replaces_results
              (default mount (run [Input "torvalds"; Wait 500] after_page_one))
              0 "torvalds" [sample_user 1] 200
              {| items := Some [sample_user 1024025] |})
    as [(y' & H & Hr & Hf & _) _].
  - vm_compute. reflexivity.
  - reflexivity.
  - exists y'. rewrite Hf, Hr. done.
Defined.

Lemma search_failure_keeps_display_witness :
  exists y',
    step (Settle 0 (SearchOutcome (Rejected (ErrorObject "Failed to fetch"))))
      after_erasing_ab = Some y'
    /\ error (view y') = Some "Failed to fetch"
    /\ searchResults (view y') = []
    /\ filteredUsers (view y') = [sample_user 1024025]
    /\ searchQuery (view y') = ""
    /\ users (view y') = [sample_user 1]
    /\ isSearching (view y') = false
    /\ blank "ab" = false.
Proof.
  apply (search_failure_keeps_display
           (page_one_loaded ++ searching ++ second_search ++ [Input ""])
           after_erasing_ab 0 "ab" [sample_user 1]
           (Rejected (ErrorObject "Failed to fetch"))
           (ErrorObject "Failed to fetch")).
  - vm_compute. reflexivity.
  - reflexivity.
  - reflexivity.
Defined.

(** ** The loading screen *)

Lemma fetchUsers_settle_initialized pageNum o s :
  isInitialized s = false ->
  isInitialized (fetchUsers_settle pageNum o s) = true ->
  pageNum = 1 /\ exists data, payload o = inl data /\ data <> [].
Proof.
  intros Hs. unfold fetchUsers_settle.
  destruct (payload o) as [data|err]; simpl; [|congruence].
  destruct (Z.of_nat (length data) =? 0) eqn:El; simpl; [congruence|].
  destruct (pageNum =? 1) eqn:En; simpl; [|congruence].
  intros _. split; [by apply Z.eqb_eq|]. exists data. split; [done|].
  intros ->. done.
Qed.

(** The only event that sets [isInitialized] is a non-empty answer to a
    request for page 1. *)
Lemma step_initializes e y y' :
  step e y = Some y' ->
  isInitialized (view y) = false -> isInitialized (view y') = true ->
  exists i o data,
    e = Settle i (PageOutcome o)
    /\ inflight y !! i = Some (PageRequest 1)
    /\ payload o = inl data /\ data <> [].
Proof.
  intros H Hf Ht. apply step_inv in H as (yh & H & ->).
  rewrite commit_view in Ht.
  destruct e as [i r| b | | | value | ms]; handle_cases H;
    revert Ht; sys_simpl; unfold retryFetch, fire_timer, run_search;
    cbn [view];
    repeat match goal with
      | |- context [fetchUsers_begin ?n ?s] =>
          destruct (fetchUsers_begin_frame n s) as (_&_&_&_&_&_& -> &_)
      | |- context [searchUsers_settle ?u ?q ?o ?s] =>
          destruct (searchUsers_settle_users u q o s) as (_&_&_&_&_& ->)
      end; simpl; try congruence.
  - intros Ht.
    destruct (fetchUsers_settle_initialized _ _ _ Hf Ht) as (-> & data & ?).
    by exists i, o, data.
  - match goal with |- context [debounce_callback ?t ?s] =>
      destruct (debounce_callback_frame t s) as (_&_&_&_&_& Hi &_) end.
    destruct (snd _); sys_simpl; congruence.
Qed.

Lemma step_stuck e y y' : stuck y -> step e y = Some y' -> stuck y'.
Proof.
  intros (Hi & Hf & Hq & Ho & Ht) H. apply step_inv in H as (yh & H & ->).
  assert (Hc : forall yh,
    isInitialized (view yh) = false -> inflight yh = [] ->
    searchQuery (view yh) = "" ->
    (forall o, observer yh = Some o -> observing o = false) ->
    (forall t, timer yh = Some t -> t_searchQuery t = "") ->
    stuck (commit yh)).
  { clear. intros yh Hi Hf Hq Ho Ht. unfold stuck.
    rewrite commit_view, commit_inflight, commit_observer, commit_timer.
    repeat (split; [done|]). split.
    - unfold last_card, render. rewrite Hi. simpl. unfold update_ref.
      case_decide; [done|]. destruct (attached yh) as [[c k]|]; [|done].
      unfold lastUserRef. destruct (_ || _); [done|]. by intros o [= <-].
    - case_decide; [done|]. by intros t [= <-]. }
  destruct e as [i r| b | | | value | ms]; unfold handle in H.
  - by rewrite Hf in H.
  - destruct (observer y) as [o|] eqn:E; [|done].
    by rewrite (Ho o eq_refl) in H.
  - unfold retry_button_shown, render in H. by rewrite Hi in H.
  - unfold clear_button_shown, render in H. by rewrite Hi in H.
  - unfold search_input_shown, render in H. by rewrite Hi in H.
  - destruct (0 <=? ms); [|done]. cbn [advance timer clock] in H.
    destruct (timer y) as [t|] eqn:E.
    + destruct (deadline t <=? clock y + ms); injection H as <-.
      * unfold fire_timer, run_search, debounce_callback.
        rewrite (Ht t eq_refl). simpl. apply Hc; try assumption. by intros t'.
      * apply Hc; try assumption. cbn [advance timer]. by rewrite E.
    + injection H as <-. apply Hc; try assumption.
      cbn [advance timer]. by rewrite E.
Qed.

Lemma run_stuck es y y' : stuck y -> run es y = Some y' -> stuck y'.
Proof.
  revert y. induction es as [|e es IH]; intros y S; simpl.
  - by intros [= <-].
  - destruct (step e y) as [y1|] eqn:E; simpl; [|done].
    apply IH. by eapply step_stuck.
Qed.

(** C10: [isInitialized] is set only by a load of page 1 that succeeds with
    a non-empty result; [render] returns the loading screen for every state
    in which it is unset, so neither the error message and retry button nor
    the end-of-results notice is on screen; and when the first load of page 1
    fails or comes back empty, the view is on the loading screen after every
    later event. *)
Theorem uninitialized_shows_loading_screen :
  (forall e y y',
     step e y = Some y' ->
     isInitialized (view y) = false -> isInitialized (view y') = true ->
     exists i o data,
       e = Settle i (PageOutcome o)
       /\ inflight y !! i = Some (PageRequest 1)
       /\ payload o = inl data /\ data <> [])
  /\ (forall s, isInitialized s = false ->
        render s = LoadingScreen
        /\ retry_button_shown s = false)
  /\ (forall o,
        payload o = inl [] \/ (exists err, payload o = inr err) ->
        exists y1,
          step (Settle 0 (PageOutcome o)) mount = Some y1
          /\ forall es y, run es y1 = Some y ->
               render (view y) = LoadingScreen).
Proof.
  split; [exact step_initializes|]. split.
  - intros s Hs. unfold retry_button_shown, render. by rewrite Hs.
  - intros o Ho. eexists. split; [by apply step_settle_page|].
    intros es y Hy.
    assert (S : stuck (commit (settled 0
                  (fetchUsers_settle 1 o (view mount)) mount))).
    { unfold stuck.
      rewrite commit_view, commit_inflight, commit_observer, commit_timer.
      sys_simpl.
      assert (Hv : fetchUsers_settle 1 o (view mount)
                   = setLoading false (setHasMore false (view mount))
                \/ exists m,
                   fetchUsers_settle 1 o (view mount)
                   = setLoading false (setError (Some m) (view mount))).
      { destruct Ho as [Ho|[err Ho]].
        - left. by rewrite fetchUsers_settle_empty.
        - right. eexists. by rewrite (fetchUsers_settle_error _ _ err). }
      destruct Hv as [-> | [m ->]];
        do 4 (split; [done|]);
        intros t; case_decide; by intros [= <-]. }
    destruct (run_stuck _ _ _ S Hy) as (Hi & _).
    unfold render. by rewrite Hi.
Qed.

(** The first load of page 1 is answered with status 500: the error is in
    the state, and the screen is still the loading screen. *)
Lemma uninitialized_shows_loading_screen_witness :
  exists y1,
    step (Settle 0 (PageOutcome (Response 500 []))) mount = Some y1
    /\ error (view y1) = Some "HTTP error! status: 500"
    /\ render (view y1) = LoadingScreen
    /\ step ClickRetry y1 = None.
Proof.
  destruct (proj2 (proj2 uninitialized_shows_loading_screen)
              (Response 500 [])) as (y1 & H1 & Hr).
  - right. eexists. reflexivity.
  - exists y1. split; [done|].
    assert (E : y1 = commit (settled 0
                  (fetchUsers_settle 1 (Response 500 []) (view mount)) mount)).
    { rewrite (step_settle_page mount 0 1) in H1 by reflexivity.
      by injection H1. }
    split; [by rewrite E|]. split; [exact (Hr [] y1 eq_refl)|].
    by rewrite E.
Defined.

(** * Further properties of the listing view *)

(** ** Merging a page into the listing *)

Lemma merge_page_unfold prevUsers data :
  merge_page prevUsers data
  = prevUsers
    ++ List.filter
         (fun user => negb (bool_decide (id user ∈ ids prevUsers))) data.
Proof.
  unfold merge_page. f_equal. apply filter_ext. intros u. f_equal.
  apply bool_decide_ext. unfold ids. by rewrite elem_of_list_to_set.
Qed.

Lemma merge_page_absorb prevUsers data :
  (forall u, u ∈ data -> id u ∈ ids prevUsers) ->
  merge_page prevUsers data = prevUsers.
Proof.
  intros H. rewrite merge_page_unfold.
  assert (E : List.filter
    (fun user => negb (bool_decide (id user ∈ ids prevUsers))) data = []);
    [|by rewrite E, app_nil_r].
  induction data as [|u data IH]; simpl; [done|].
  rewrite bool_decide_eq_true_2 by (apply H; by left). simpl.
  apply IH. intros v Hv. apply H. by right.
Qed.

Lemma merge_page_ids prevUsers data i :
  i ∈ ids (merge_page prevUsers data) <-> i ∈ ids prevUsers \/ i ∈ ids data.
Proof.
  rewrite merge_page_unfold. unfold ids at 1. rewrite map_app, elem_of_app.
  split.
  - intros [H|H]; [by left|]. right.
    apply list_elem_of_fmap in H as (u & -> & Hu).
    apply list_elem_of_In, filter_In in Hu as [Hu _].
    apply list_elem_of_fmap. exists u. split; [done|]. by apply list_elem_of_In.
  - intros [H|H]; [by left|].
    destruct (decide (i ∈ ids prevUsers)) as [Hi|Hi]; [by left|]. right.
    apply list_elem_of_fmap in H as (u & -> & Hu).
    apply list_elem_of_fmap. exists u. split; [done|].
    apply list_elem_of_In, filter_In. split; [by apply list_elem_of_In|].
    by rewrite bool_decide_eq_false_2.
Qed.

Lemma merge_page_prefix prevUsers data :
  prevUsers `prefix_of` merge_page prevUsers data.
Proof. rewrite merge_page_unfold. by eexists. Qed.

(** X1: merging a page never moves or drops what the listing holds (the old
    listing is a prefix of the new one), the identifiers afterwards are those
    of the listing together with those of the page, and the listing grows by
    at most the size of the page. *)
Theorem merge_page_extends prevUsers data :
  prevUsers `prefix_of` merge_page prevUsers data
  /\ (forall i, i ∈ ids (merge_page prevUsers data)
                <-> i ∈ ids prevUsers \/ i ∈ ids data)
  /\ (length prevUsers <= length (merge_page prevUsers data)
      <= length prevUsers + length data)%nat.
Proof.
  split; [|split].
  - apply merge_page_prefix.
  - intros i. apply merge_page_ids.
  - rewrite merge_page_unfold, length_app.
    pose proof (filter_length_le
      (fun user => negb (bool_decide (id user ∈ ids prevUsers))) data).
    lia.
Qed.

(** Merging a page a second time adds nothing, also when other pages were
    merged in between. *)
Lemma merge_page_again prevUsers data between :
  merge_page (merge_page prevUsers data) data = merge_page prevUsers data
  /\ merge_page (merge_page (merge_page prevUsers data) between) data
     = merge_page (merge_page prevUsers data) between.
Proof.
  split; apply merge_page_absorb; intros u Hu.
  - apply merge_page_ids. right. apply list_elem_of_fmap. by exists u.
  - apply merge_page_ids. left. apply merge_page_ids. right.
    apply list_elem_of_fmap. by exists u.
Qed.







(** X3: the merge is a plain append exactly when no identifier of the page is
    in the listing yet (a page may then even repeat an identifier of its
    own). *)
Theorem merge_page_append_iff prevUsers data :
  merge_page prevUsers data = prevUsers ++ data
  <-> forall u, u ∈ data -> id u ∉ ids prevUsers.
Proof.
  rewrite merge_page_unfold. split.
  - intros H%app_inv_head u Hu Hin.
    assert (Hf : forallb
      (fun user => negb (bool_decide (id user ∈ ids prevUsers))) data = true).
    { apply filter_length_forallb. by rewrite H. }
    rewrite forallb_forall in Hf. apply list_elem_of_In, Hf in Hu.
    apply negb_true_iff, bool_decide_eq_false in Hu. done.
  - intros H. f_equal. apply forallb_filter_id, forallb_forall.
    intros u Hu%list_elem_of_In. apply negb_true_iff, bool_decide_eq_false.
    by apply H.
Qed.

(** ** What handlers leave alone *)

(** Every handler but the answer to a page request leaves the listing, the
    exhausted flag, the initialized flag and the page number as they are. *)
Lemma handle_frame e y yh :
  handle e y = Some yh ->
  (exists i pageNum o,
     e = Settle i (PageOutcome o)
     /\ inflight y !! i = Some (PageRequest pageNum)
     /\ view yh = fetchUsers_settle pageNum o (view y))
  \/ (users (view yh) = users (view y)
      /\ hasMore (view yh) = hasMore (view y)
      /\ isInitialized (view yh) = isInitialized (view y)
      /\ page (view yh) = page (view y)).
Proof.
  intros H.
  destruct e as [i r| b | | | value | ms]; handle_cases H; sys_simpl;
    unfold retryFetch, clearSearch, fire_timer, run_search; cbn [view];
    try (left; by exists i, pageNum, o); right;
    repeat match goal with
      | |- context [fetchUsers_begin ?n ?s] =>
          destruct (fetchUsers_begin_frame n s)
            as (-> & _ & _ & _ & -> & -> & -> & _)
      | |- context [searchUsers_settle ?u ?q ?o ?s] =>
          destruct (searchUsers_settle_users u q o s)
            as (-> & _ & _ & -> & -> & ->)
      end; try done.
  match goal with |- context [debounce_callback ?t ?s] =>
    destruct (debounce_callback_frame t s) as (Hu & _ & _ & Hp & Hh & Hi & _)
  end.
  destruct (snd _); sys_simpl; by rewrite Hu, Hp, Hh, Hi.
Qed.

(** No handler touches the observer or the attached ref callback. *)
Lemma handle_refs e y yh :
  handle e y = Some yh ->
  observer yh = observer y /\ attached yh = attached y.
Proof.
  intros H.
  destruct e as [i r| b | | | value | ms]; handle_cases H; sys_simpl;
    try done.
  unfold fire_timer, run_search. by destruct (snd _).
Qed.

Lemma fetchUsers_settle_cases pageNum o s :
  (exists data, payload o = inl data /\ data <> []
     /\ users (fetchUsers_settle pageNum o s)
        = (if pageNum =? 1 then data else merge_page (users s) data)
     /\ users_ref (fetchUsers_settle pageNum o s) = S (users_ref s)
     /\ hasMore (fetchUsers_settle pageNum o s) = hasMore s
     /\ isInitialized (fetchUsers_settle pageNum o s)
        = (if pageNum =? 1 then true else isInitialized s))
  \/ (payload o = inl []
      /\ users (fetchUsers_settle pageNum o s) = users s
      /\ hasMore (fetchUsers_settle pageNum o s) = false
      /\ isInitialized (fetchUsers_settle pageNum o s) = isInitialized s)
  \/ (exists err, payload o = inr err
      /\ users (fetchUsers_settle pageNum o s) = users s
      /\ hasMore (fetchUsers_settle pageNum o s) = hasMore s
      /\ isInitialized (fetchUsers_settle pageNum o s) = isInitialized s).
Proof.
  unfold fetchUsers_settle.
  destruct (payload o) as [data|err]; simpl; [|right; right; by eauto].
  destruct (Z.of_nat (length data) =? 0) eqn:El; simpl.
  - apply length_zero_iff in El as ->. right. left. done.
  - left. exists data. split; [done|]. split.
    { intros ->. done. }
    by destruct (pageNum =? 1).
Qed.

(** ** The listing over time *)

(** X4: the accumulated listing is append-only, except for a non-empty
    answer to a request for page 1, which replaces it: whatever the event,
    either the old listing is a prefix of the new one, or the event is such
    an answer and the new listing is its data. *)
Theorem listing_append_only e y y' :
  step e y = Some y' ->
  users (view y) `prefix_of` users (view y')
  \/ exists i o data,
       e = Settle i (PageOutcome o)
       /\ inflight y !! i = Some (PageRequest 1)
       /\ payload o = inl data /\ data <> []
       /\ users (view y') = data.
Proof.
  intros H. apply step_inv in H as (yh & H & ->). rewrite commit_view.
  destruct (handle_frame _ _ _ H) as [(i & n & o & -> & Hi & ->)|(-> & _)];
    [|by left].
  destruct (fetchUsers_settle_cases n o (view y))
    as [(data & Hp & Hd & -> & _)|[(_ & -> & _)|(err & _ & -> & _)]];
    try by left.
  destruct (n =? 1) eqn:En.
  - apply Z.eqb_eq in En as ->. right. by exists i, o, data.
  - left. apply merge_page_prefix.
Qed.

Lemma listing_append_only_witness :
  users (view after_paging_started) `prefix_of` users (view after_second_page)
  \/ exists i o data,
       Settle 0 (PageOutcome (success (sample_users 1 3)))
       = Settle i (PageOutcome o)
       /\ inflight after_paging_started !! i = Some (PageRequest 1)
       /\ payload o = inl data /\ data <> []
       /\ users (view after_second_page) = data.
Proof.
  apply (listing_append_only
           (Settle 0 (PageOutcome (success (sample_users 1 3))))
           after_paging_started after_second_page).
  vm_compute. reflexivity.
Defined.

Lemma step_initialized e y y' :
  step e y = Some y' ->
  isInitialized (view y) = true -> isInitialized (view y') = true.
Proof.
  intros E Hi. apply step_inv in E as (yh & E & ->). rewrite commit_view.
  destruct (handle_frame _ _ _ E)
    as [(i & n & o & -> & _ & ->)|(_ & _ & -> & _)]; [|done].
  destruct (fetchUsers_settle_cases n o (view y))
    as [(data & _ & _ & _ & _ & _ & ->)|[(_ & _ & _ & ->)
       |(err & _ & _ & _ & ->)]]; try done.
  by destruct (n =? 1).
Qed.

(** X5: once the dashboard has been shown the loading screen never comes
    back: no event clears [isInitialized], whatever fails afterwards. *)
Theorem initialized_forever es y y' :
  run es y = Some y' ->
  isInitialized (view y) = true ->
  isInitialized (view y') = true /\ render (view y') <> LoadingScreen.
Proof.
  intros H Hi.
  assert (Hi' : isInitialized (view y') = true).
  { revert y H Hi. induction es as [|e es IH]; intros y; simpl.
    - by intros [= <-].
    - destruct (step e y) as [y1|] eqn:E; simpl; [|done]. intros H Hi.
      apply (IH y1 H). by eapply step_initialized. }
  split; [done|]. unfold render. by rewrite Hi'.
Qed.

Lemma initialized_forever_witness :
  isInitialized (view after_troubles) = true
  /\ render (view after_troubles) <> LoadingScreen.
Proof.
  apply (initialized_forever troubles after_page_one after_troubles).
  - vm_compute. reflexivity.
  - reflexivity.
Defined.

(** X6: only an empty successful answer to a page request marks the listing
    exhausted; a failure, a search or a click never does. *)
Theorem exhausted_only_by_empty_page e y y' :
  step e y = Some y' ->
  hasMore (view y) = true -> hasMore (view y') = false ->
  exists i pageNum o,
    e = Settle i (PageOutcome o)
    /\ inflight y !! i = Some (PageRequest pageNum)
    /\ payload o = inl [].
Proof.
  intros H Ht Hf. apply step_inv in H as (yh & H & ->).
  rewrite commit_view in Hf.
  destruct (handle_frame _ _ _ H)
    as [(i & n & o & -> & Hi & Hv)|(_ & Hh & _)]; [|congruence].
  rewrite Hv in Hf.
  destruct (fetchUsers_settle_cases n o (view y))
    as [(data & _ & _ & _ & _ & Hh & _)|[(Hp & _)|(err & _ & _ & Hh & _)]];
    try congruence.
  by exists i, n, o.
Qed.

Lemma exhausted_only_by_empty_page_witness :
  exists i pageNum o,
    Settle 0 (PageOutcome (success [])) = Settle i (PageOutcome o)
    /\ inflight after_paging_started !! i = Some (PageRequest pageNum)
    /\ payload o = inl [].
Proof.
  apply (exhausted_only_by_empty_page
           (Settle 0 (PageOutcome (success []))) after_paging_started
           (default mount
              (step (Settle 0 (PageOutcome (success [])))
                 after_paging_started))).
  - vm_compute. reflexivity.
  - reflexivity.
  - vm_compute. reflexivity.
Defined.

(** X7: in every run of the mounted component in which no page answer
    repeats an identifier, the accumulated listing holds no identifier twice,
    whatever searches, retries, clicks and failures are interleaved. *)
Theorem listing_unique_in_every_run es y :
  pages_duplicate_free es ->
  run es mount = Some y ->
  NoDup (ids (users (view y))).
Proof.
  assert (G : forall es y0 y, pages_duplicate_free es ->
    NoDup (ids (users (view y0))) -> run es y0 = Some y ->
    NoDup (ids (users (view y)))).
  { clear. induction es as [|e es IH]; intros y0 y Hes H0; simpl.
    - by intros [= <-].
    - destruct (step e y0) as [y1|] eqn:E; simpl; [|done].
      apply Forall_cons in Hes as [He Hes]. apply IH; [done|].
      apply step_inv in E as (yh & E & ->). rewrite commit_view.
      destruct (handle_frame _ _ _ E)
        as [(i & n & o & -> & _ & ->)|(-> & _)]; [|done].
      by apply fetchUsers_settle_NoDup. }
  intros Hes. apply G; [done|]. constructor.
Qed.

Lemma listing_unique_in_every_run_witness :
  NoDup (ids (users (view after_duplicate_answers))).
Proof.
  assert (H3 : NoDup (ids (sample_users 1 3)))
    by (apply (bool_decide_unpack _); vm_compute; reflexivity).
  assert (H5 : NoDup (ids (sample_users 3 3)))
    by (apply (bool_decide_unpack _); vm_compute; reflexivity).
  apply (listing_unique_in_every_run duplicate_answers
           after_duplicate_answers).
  - unfold pages_duplicate_free, duplicate_answers.
    constructor; [by intros data [= <-]|].
    constructor; [exact I|]. constructor; [exact I|].
    constructor; [by intros data [= <-]|].
    constructor; [by intros data [= <-]|]. constructor.
  - vm_compute. reflexivity.
Defined.

(** ** What is sent, and when *)

Lemma sent_ok e y y' :
  consistent y -> step e y = Some y' -> Forall request_ok (sent e y).
Proof.
  intros C H. pose proof (step_consistent _ _ _ C H) as C'.
  pose proof (step_issued _ _ _ H) as Hi.
  apply step_inv in H as (yh & H & _).
  pose proof (h_inflight _ (handle_handled _ _ _ C H)) as Hf.
  destruct e as [i r| b | | | value | ms]; simpl; try by constructor.
  - destruct (observer y) as [o|] eqn:Eo; [|by constructor].
    destruct (observer_callback o b) as [n|] eqn:En; [|by constructor].
    unfold handle in H. rewrite Eo in H.
    destruct (observing o) eqn:Ew; [|done].
    destruct (observer_in_sync y o C Eo Ew) as (_ & Hp & _).
    unfold observer_callback in En. destruct (b && cb_hasMore o); [|done].
    injection En as <-. apply Forall_singleton. simpl.
    pose proof (c_page y C). lia.
  - destruct (timer y) as [t|]; [|by constructor].
    destruct (deadline t <=? clock y + ms); simpl; [|by constructor].
    destruct (blank (t_searchQuery t)) eqn:Eb; simpl; [by constructor|].
    by apply Forall_singleton.
Qed.

(** X8: every request the mounted component ever sends is a request for a
    page numbered 1 or more, or a search for a text that is not blank. *)
Theorem every_request_well_formed es y :
  run es mount = Some y ->
  forall r, r ∈ issued y ->
    match r with
    | PageRequest pageNum => 1 <= pageNum
    | SearchRequest query _ => blank query = false
    end.
Proof.
  intros H.
  assert (G : forall es y0 y, consistent y0 -> Forall request_ok (issued y0) ->
    run es y0 = Some y -> Forall request_ok (issued y)).
  { clear. induction es as [|e es IH]; intros y0 y C0 H0; simpl.
    - by intros [= <-].
    - destruct (step e y0) as [y1|] eqn:E; simpl; [|done].
      apply IH; [by eapply step_consistent|].
      rewrite (step_issued _ _ _ E). apply Forall_app. split; [done|].
      by eapply sent_ok. }
  intros r Hr.
  assert (Hm : Forall request_ok (issued mount)).
  { apply Forall_singleton. done. }
  pose proof (G es mount y mount_consistent Hm H) as Hall.
  rewrite Forall_forall in Hall. exact (Hall r Hr).
Qed.

Lemma every_request_well_formed_witness :
  blank "tor" = false.
Proof.
  apply (every_request_well_formed
           (page_one_loaded ++ typing_tor ++ [Wait 500])
           after_typing_tor_pause
           ltac:(vm_compute; reflexivity)
           (SearchRequest "tor" [sample_user 1])).
  vm_compute. right. left.
Defined.

(** X9: a search request is sent only by time passing, that is by the
    debounce timer; typing, clicking, scrolling and answers never send one
    directly. It is sent for the text that is in the box at that moment,
    which is not blank, and its continuation closes over the current
    listing. *)
Theorem search_sent_only_by_timer es y e y' new query users_c :
  run es mount = Some y ->
  step e y = Some y' ->
  issued y' = issued y ++ new ->
  SearchRequest query users_c ∈ new ->
  (exists ms, e = Wait ms)
  /\ query = searchQuery (view y)
  /\ users_c = users (view y)
  /\ blank query = false.
Proof.
  intros Hy H Hnew Hin. pose proof (reachable_consistent _ _ Hy) as C.
  rewrite (step_issued _ _ _ H) in Hnew. apply app_inv_head in Hnew as <-.
  destruct e as [i r| b | | | value | ms]; simpl in Hin;
    try by apply elem_of_nil in Hin.
  - destruct (observer y) as [o|]; [|by apply elem_of_nil in Hin].
    destruct (observer_callback o b); [|by apply elem_of_nil in Hin].
    by apply list_elem_of_singleton in Hin.
  - by apply list_elem_of_singleton in Hin.
  - destruct (timer y) as [t|] eqn:Et; [|by apply elem_of_nil in Hin].
    destruct (c_timer y C t Et) as [Hq Hu].
    destruct (deadline t <=? clock y + ms); simpl in Hin;
      [|by apply elem_of_nil in Hin].
    destruct (blank (t_searchQuery t)) eqn:Eb; simpl in Hin;
      [by apply elem_of_nil in Hin|].
    apply list_elem_of_singleton in Hin. injection Hin as -> ->.
    split; [by exists ms|]. done.
Qed.

Lemma search_sent_only_by_timer_witness :
  (exists ms, Wait 500 = Wait ms)
  /\ "tor" = searchQuery (view after_typing_tor)
  /\ [sample_user 1] = users (view after_typing_tor)
  /\ blank "tor" = false.
Proof.
  apply (search_sent_only_by_timer
           (page_one_loaded ++ typing_tor) after_typing_tor
           (Wait 500) after_typing_tor_pause
           [SearchRequest "tor" [sample_user 1]]).
  - vm_compute. reflexivity.
  - vm_compute. reflexivity.
  - vm_compute. reflexivity.
  - left.
Defined.

(** ** When the observer watches *)

(** X10: the observer can report an intersection only while the dashboard is
    shown with at least one card, the search box is empty and [loading] is
    false; so while any text is in the box, or while the [loading] flag is
    set, scrolling cannot send a page request. *)
Theorem observer_watches_only_when es y isIntersecting y' :
  run es mount = Some y ->
  step (Intersect isIntersecting) y = Some y' ->
  isInitialized (view y) = true
  /\ searchQuery (view y) = ""
  /\ loading (view y) = false
  /\ filteredUsers (view y) <> [].
Proof.
  intros Hy H. pose proof (reachable_consistent _ _ Hy) as C.
  apply step_inv in H as (yh & H & _). unfold handle in H.
  destruct (observer y) as [o|] eqn:Eo; [|done].
  destruct (observing o) eqn:Ew; [|done].
  destruct (observer_in_sync y o C Eo Ew) as (_ & _ & Hl & Hq & Hi & Hf).
  done.
Qed.

Lemma observer_watches_only_when_witness :
  isInitialized (view after_page_one) = true
  /\ searchQuery (view after_page_one) = ""
  /\ loading (view after_page_one) = false
  /\ filteredUsers (view after_page_one) <> [].
Proof.
  apply (observer_watches_only_when page_one_loaded after_page_one true
           after_scroll).
  - vm_compute. reflexivity.
  - vm_compute. reflexivity.
Defined.

Lemma update_ref_watching want have o :
  (forall c k, have = Some (c, k) ->
     ref_loading c || truthy (trim (ref_searchQuery c)) = false ->
     exists ob, o = Some ob /\ observing ob = true) ->
  forall c k, want = Some (c, k) ->
    ref_loading c || truthy (trim (ref_searchQuery c)) = false ->
    exists ob, update_ref want have o = Some ob /\ observing ob = true.
Proof.
  intros Hh c k -> G. unfold update_ref. case_decide as E.
  - by apply (Hh c k).
  - unfold lastUserRef at 1. rewrite G. by eexists.
Qed.

Lemma step_watching e y y' :
  watching_ok y -> step e y = Some y' -> watching_ok y'.
Proof.
  intros W H. apply step_inv in H as (yh & H & ->).
  destruct (handle_refs _ _ _ H) as [Ho Ha].
  intros c k. rewrite commit_observer.
  destruct (commit_frame yh) as (_ & -> & _). rewrite Ho, Ha.
  by apply update_ref_watching.
Qed.

Lemma reachable_watching es y : run es mount = Some y -> watching_ok y.
Proof.
  assert (G : forall es y0 y, watching_ok y0 -> run es y0 = Some y ->
    watching_ok y).
  { clear. induction es as [|e es IH]; intros y0 y W; simpl.
    - by intros [= <-].
    - destruct (step e y0) as [y1|] eqn:E; simpl; [|done].
      apply IH. by eapply step_watching. }
  apply G. by intros c k.
Qed.

(** X11: whenever the dashboard shows at least one card, the search box is
    empty and [loading] is clear, the observer is watching the last card; if
    the listing is not exhausted, that card becoming visible sends a request
    for the page after the current one, and if it is exhausted nothing is
    sent. *)
Theorem scroll_loads_next_page es y :
  run es mount = Some y ->
  isInitialized (view y) = true ->
  searchQuery (view y) = "" ->
  loading (view y) = false ->
  filteredUsers (view y) <> [] ->
  exists y',
    step (Intersect true) y = Some y'
    /\ issued y'
       = issued y
         ++ (if hasMore (view y) then [PageRequest (page (view y) + 1)]
             else []).
Proof.
  intros Hy Hi Hq Hl Hf. pose proof (reachable_consistent _ _ Hy) as C.
  pose proof (reachable_watching _ _ Hy) as W.
  assert (Ha : exists k, attached y
     = Some ({| ref_loading := loading (view y);
                ref_hasMore := hasMore (view y);
                ref_page := page (view y);
                ref_searchQuery := searchQuery (view y) |}, k)).
  { rewrite (c_attached y C). unfold last_card, render. rewrite Hi, Hq.
    simpl. destruct (filteredUsers (view y)) as [|u l] eqn:E; [done|].
    simpl. destruct (last (u :: l)) eqn:El; [by eexists|].
    by apply last_None in El. }
  destruct Ha as [k Ha].
  destruct (W _ _ Ha) as (ob & Ho & Ew); [simpl; by rewrite Hl, Hq|].
  destruct (observer_in_sync y ob C Ho Ew) as (Hh & Hp & _).
  destruct (step (Intersect true) y) as [y'|] eqn:H.
  - exists y'. split; [done|]. rewrite (step_issued _ _ _ H). simpl.
    rewrite Ho. unfold observer_callback. simpl. rewrite Hh, Hp.
    by destruct (hasMore (view y)).
  - unfold step, handle in H. rewrite Ho, Ew in H. done.
Qed.

Lemma scroll_loads_next_page_witness :
  exists y',
    step (Intersect true) after_page_one = Some y'
    /\ issued y' = issued after_page_one ++ [PageRequest 2].
Proof.
  apply (scroll_loads_next_page page_one_loaded after_page_one).
  - vm_compute. reflexivity.
  - reflexivity.
  - reflexivity.
  - reflexivity.
  - discriminate.
Defined.

(** ** Search and paging together *)

Lemma step_query_needs_dashboard e y y' :
  step e y = Some y' ->
  (isInitialized (view y) = false -> searchQuery (view y) = "") ->
  isInitialized (view y') = false -> searchQuery (view y') = "".
Proof.
  intros H P Hi'.
  destruct (isInitialized (view y)) eqn:Hi.
  { pose proof (step_initialized _ _ _ H Hi). congruence. }
  specialize (P eq_refl). apply step_inv in H as (yh & H & ->).
  rewrite commit_view in *.
  destruct e as [i r| b | | | value | ms]; unfold handle in H.
  - destruct (inflight y !! i) as [[n|q uc]|]; [| |done]; destruct r as [o|o];
      try done; injection H as <-; sys_simpl.
    + by destruct (fetchUsers_settle_frame n o (view y)) as (-> & _).
    + by destruct (searchUsers_settle_users uc q o (view y))
        as (_ & _ & -> & _).
  - destruct (observer y) as [o|]; [|done]. destruct (observing o); [|done].
    injection H as <-. destruct (observer_callback o b); [|done]. sys_simpl.
    by destruct (fetchUsers_begin_frame z (view y)) as (_ & _ & _ & -> & _).
  - unfold retry_button_shown, render in H. by rewrite Hi in H.
  - unfold clear_button_shown, render in H. by rewrite Hi in H.
  - unfold search_input_shown, render in H. by rewrite Hi in H.
  - destruct (0 <=? ms); [|done]. cbn [advance timer clock] in H.
    destruct (timer y) as [t|]; [|by injection H as <-].
    destruct (deadline t <=? clock y + ms); injection H as <-; [|done].
    unfold fire_timer, run_search. cbn [view].
    destruct (debounce_callback_frame t (view y)) as (_ & _ & Hq & _).
    destruct (snd _); sys_simpl; by rewrite Hq.
Qed.

(** Text can be in the search box only when the dashboard is shown. *)
Lemma reachable_query_needs_dashboard es y :
  run es mount = Some y ->
  isInitialized (view y) = false -> searchQuery (view y) = "".
Proof.
  assert (G : forall es y0 y,
    (isInitialized (view y0) = false -> searchQuery (view y0) = "") ->
    run es y0 = Some y ->
    isInitialized (view y) = false -> searchQuery (view y) = "").
  { clear. induction es as [|e es IH]; intros y0 y P; simpl.
    - by intros [= <-].
    - destruct (step e y0) as [y1|] eqn:E; simpl; [|done].
      apply IH. by eapply step_query_needs_dashboard. }
  apply G. done.
Qed.

(** X12: a non-empty page answer that arrives while a non-blank text is in
    the search box puts the accumulated listing on display in place of the
    search results, although the text stays; and because the listing changed
    the debounce timer is set again, so 500 ms later the same text is
    searched for once more. *)
Theorem page_answer_during_search es y i pageNum o data :
  run es mount = Some y ->
  inflight y !! i = Some (PageRequest pageNum) ->
  payload o = inl data -> data <> [] ->
  blank (searchQuery (view y)) = false ->
  exists y1 y2,
    step (Settle i (PageOutcome o)) y = Some y1
    /\ searchQuery (view y1) = searchQuery (view y)
    /\ filteredUsers (view y1) = users (view y1)
    /\ step (Wait debounce_delay) y1 = Some y2
    /\ issued y2
       = issued y ++ [SearchRequest (searchQuery (view y)) (users (view y1))].
Proof.
  intros Hy Hi Hp Hd Hb. pose proof (reachable_consistent _ _ Hy) as C.
  pose proof (step_settle_page y i pageNum o Hi) as H1.
  set (y1 := commit (settled i (fetchUsers_settle pageNum o (view y)) y))
    in *.
  assert (Hv : view y1 = fetchUsers_settle pageNum o (view y)).
  { subst y1. by rewrite commit_view. }
  destruct (fetchUsers_settle_frame pageNum o (view y)) as (Hq & _).
  destruct (fetchUsers_settle_data pageNum o data (view y) Hp Hd)
    as (_ & Hf & _).
  destruct (fetchUsers_settle_cases pageNum o (view y))
    as [(data' & _ & _ & _ & Hr & _ & Hinit)|[(Hp' & _)|(err & Hp' & _)]];
    [|congruence|congruence].
  assert (Hinit0 : isInitialized (view y) = true).
  { destruct (isInitialized (view y)) eqn:E; [done|].
    rewrite (reachable_query_needs_dashboard _ _ Hy E) in Hb. done. }
  assert (A : armed y1 (searchQuery (view y))).
  { split; [by eapply step_consistent|].
    rewrite search_input_shown_initialized, Hv, Hinit, Hq, Hinit0.
    split; [by destruct (pageNum =? 1)|]. split; [done|].
    subst y1. rewrite commit_timer, commit_clock. sys_simpl.
    rewrite Hq, Hr, (c_deps y C). case_decide as E; [|done].
    injection E as E. lia. }
  destruct (step_wait_fire y1 _ debounce_delay A) as (y2 & H2 & _ & Hi2 & _);
    [lia|].
  exists y1, y2. rewrite Hv at 1 2. rewrite Hq, Hf, <- Hv.
  repeat (split; [done|]). rewrite Hi2, Hb. f_equal.
  subst y1. by rewrite commit_issued.
Qed.

Lemma page_answer_during_search_witness :
  exists y1 y2,
    step (Settle 0 (PageOutcome (success [sample_user 2])))
      after_searching_while_paging = Some y1
    /\ searchQuery (view y1) = "a"
    /\ filteredUsers (view y1) = users (view y1)
    /\ step (Wait debounce_delay) y1 = Some y2
    /\ issued y2
       = issued after_searching_while_paging
         ++ [SearchRequest "a" (users (view y1))].
Proof.
  apply (page_answer_during_search
           (page_one_loaded ++ searching_while_paging)
           after_searching_while_paging
           0 2 (success [sample_user 2]) [sample_user 2]).
  - vm_compute. reflexivity.
  - reflexivity.
  - reflexivity.
  - discriminate.
  - reflexivity.
Defined.

(** X13: after a click on a clear button the debounce timer that the change
    of text set runs 500 ms later and changes nothing: the state is the one
    the click left, nothing is sent and no timer is pending any more. *)
Theorem clear_then_timer_changes_nothing es y y1 :
  run es mount = Some y ->
  step ClickClear y = Some y1 ->
  exists y2,
    step (Wait debounce_delay) y1 = Some y2
    /\ view y2 = view y1
    /\ issued y2 = issued y
    /\ timer y2 = None.
Proof.
  intros Hy H1. pose proof (reachable_consistent _ _ Hy) as C.
  pose proof (step_consistent _ _ _ C H1) as C1.
  assert (Hc : clear_button_shown (view y) = true
               /\ y1 = commit (set_view
                         (clearSearch (users (view y)) (view y)) y)).
  { unfold step, handle in H1.
    destruct (clear_button_shown (view y)); [|done]. by injection H1. }
  destruct Hc as [Hs ->].
  assert (Hinit : isInitialized (view y) = true
                  /\ searchQuery (view y) <> "").
  { unfold clear_button_shown, render in Hs.
    destruct (isInitialized (view y)); [|done]. split; [done|].
    simpl in Hs. intros E. rewrite E in Hs. done. }
  destruct Hinit as [Hinit Hq].
  assert (A : armed (commit (set_view
                       (clearSearch (users (view y)) (view y)) y)) "").
  { split; [done|].
    rewrite search_input_shown_initialized, commit_view, commit_timer,
      commit_clock. sys_simpl. simpl.
    split; [done|]. split; [done|]. rewrite (c_deps y C).
    case_decide as E; [|done]. injection E as E. done. }
  destruct (step_wait_fire _ _ debounce_delay A) as (y2 & H2 & Ht & Hi & Hv);
    [lia|].
  exists y2. split; [done|]. split; [|split; [|done]].
  - rewrite Hv, commit_view. sys_simpl. reflexivity.
  - rewrite Hi, commit_issued. sys_simpl. simpl. by rewrite app_nil_r.
Qed.

Lemma clear_then_timer_changes_nothing_witness :
  exists y2,
    step (Wait debounce_delay) after_clear = Some y2
    /\ view y2 = view after_clear
    /\ issued y2 = issued after_searching
    /\ timer y2 = None.
Proof.
  apply (clear_then_timer_changes_nothing
           (page_one_loaded ++ searching) after_searching after_clear).
  - vm_compute. reflexivity.
  - vm_compute. reflexivity.
Defined.

(** ** What the dashboard shows after a failure *)

(** X14: after a failed search the search result set is empty while the
    cards are left as they were: with text in the box the status line reads
    "No users found" and the counter shows 0, above the cards that were on
    display before the failure. *)
Theorem failed_search_status es y i query users_c o err :
  run es mount = Some y ->
  inflight y !! i = Some (SearchRequest query users_c) ->
  payload o = inr err ->
  isInitialized (view y) = true ->
  truthy (searchQuery (view y)) = true ->
  exists y' d,
    step (Settle i (SearchOutcome o)) y = Some y'
    /\ render (view y') = DashboardScreen d
    /\ search_status d = Some NoUsersFound
    /\ stats_count d = 0%nat
    /\ cards d = filteredUsers (view y).
Proof.
  intros Hy Hi Hp Hinit Hq. pose proof (reachable_consistent _ _ Hy) as C.
  assert (Hb : blank query = false).
  { assert (request_ok (SearchRequest query users_c)) as Hr; [|done].
    eapply Forall_forall; [apply (c_inflight y C)|].
    by eapply list_elem_of_lookup_2. }
  eexists _, _. split; [by apply step_settle_search|].
  rewrite commit_view. sys_simpl. unfold searchUsers_settle.
  rewrite Hp, Hb. unfold render. simpl. rewrite Hinit, Hq. simpl. done.
Qed.

Lemma failed_search_status_witness :
  exists y' d,
    step (Settle 0 (SearchOutcome (Response 503 {| items := None |})))
      after_second_search = Some y'
    /\ render (view y') = DashboardScreen d
    /\ search_status d = Some NoUsersFound
    /\ stats_count d = 0%nat
    /\ cards d = [sample_user 1024025].
Proof.
  apply (failed_search_status
           (page_one_loaded ++ searching ++ second_search)
           after_second_search 0 "ab" [sample_user 1]
           (Response 503 {| items := None |})
           (ErrorObject "HTTP error! status: 503")).
  - vm_compute. reflexivity.
  - reflexivity.
  - reflexivity.
  - reflexivity.
  - reflexivity.
Defined.

(** X15: on the dashboard the error block, with its retry button, is shown
    after a failed page load exactly when the message is not the empty
    string; a failure whose [Error] carries an empty message sets the error
    state but offers no retry. *)
Theorem error_block_needs_message y i pageNum o err :
  inflight y !! i = Some (PageRequest pageNum) ->
  payload o = inr err ->
  isInitialized (view y) = true ->
  exists y',
    step (Settle i (PageOutcome o)) y = Some y'
    /\ error (view y') = Some (error_message "Failed to fetch users" err)
    /\ retry_button_shown (view y')
       = truthy (error_message "Failed to fetch users" err)
    /\ (error_message "Failed to fetch users" err = "" ->
        step ClickRetry y' = None).
Proof.
  intros Hi Hp Hinit. eexists. split; [by apply step_settle_page|].
  rewrite commit_view. sys_simpl.
  rewrite (fetchUsers_settle_error _ _ err) by done.
  assert (Hr : retry_button_shown
      (setLoading false
         (setError (Some (error_message "Failed to fetch users" err))
            (view y)))
      = truthy (error_message "Failed to fetch users" err)).
  { unfold retry_button_shown, render. simpl. rewrite Hinit. simpl.
    by destruct (truthy _). }
  split; [done|]. split; [done|].
  intros Hm. unfold step, handle. rewrite commit_view. sys_simpl.
  by rewrite Hr, Hm.
Qed.

Lemma error_block_needs_message_witness :
  exists y',
    step (Settle 0 (PageOutcome (Rejected (ErrorObject ""))))
      after_paging_started = Some y'
    /\ error (view y') = Some ""
    /\ retry_button_shown (view y') = false
    /\ step ClickRetry y' = None.
Proof.
  destruct (error_block_needs_message after_paging_started 0 2
              (Rejected (ErrorObject "")) (ErrorObject ""))
    as (y' & H & He & Hr & Hn).
  - reflexivity.
  - reflexivity.
  - reflexivity.
  - exists y'. split; [done|]. split; [done|]. split; [done|]. by apply Hn.
Defined.

(** ** The busy flags *)

Lemma elem_of_delete_other (l : list Request) i r r' :
  r ∈ l -> l !! i = Some r' -> r <> r' -> r ∈ delete i l.
Proof.
  revert i. induction l as [|a l IH]; intros i Hin Hi Hne.
  - by apply elem_of_nil in Hin.
  - destruct i as [|i]; simpl in *.
    + injection Hi as ->. apply elem_of_cons in Hin as [->|Hin]; done.
    + apply elem_of_cons in Hin as [->|Hin]; [by left|].
      right. by apply (IH i).
Qed.

Lemma step_busy_flags e y y' :
  busy_flags_ok y -> step e y = Some y' -> busy_flags_ok y'.
Proof.
  intros [Hl Hs] H. apply step_inv in H as (yh & H & ->).
  unfold busy_flags_ok. rewrite commit_view, commit_inflight.
  destruct e as [i r| b | | | value | ms]; handle_cases H; sys_simpl.
  - (* a page request settles *)
    split.
    + unfold fetchUsers_settle. simpl. done.
    + destruct (fetchUsers_settle_frame pageNum o (view y)) as (_ & _ & ->).
      intros Hi. destruct (Hs Hi) as (q & uc & Hin). exists q, uc.
      by eapply elem_of_delete_other.
  - (* a search request settles *)
    split.
    + assert (E2 : loading (searchUsers_settle users_c query o (view y))
                   = loading (view y)).
      { unfold searchUsers_settle. destruct (payload o); simpl; [done|].
        by destruct (blank query). }
      rewrite E2. intros Hi.
      eapply elem_of_delete_other; [by apply Hl|done|done].
    + unfold searchUsers_settle. simpl. done.
  - (* the observer asks for a page *)
    split.
    + unfold fetchUsers_begin. destruct (z =? 1) eqn:Ez; simpl.
      * intros _. apply Z.eqb_eq in Ez as ->. apply elem_of_app. right.
        by left.
      * intros Hi. apply elem_of_app. left. by apply Hl.
    + unfold fetchUsers_begin. destruct (z =? 1); simpl; intros Hi;
        destruct (Hs Hi) as (q & uc & Hin); exists q, uc;
        apply elem_of_app; by left.
  - done.
  - (* retry *)
    split.
    + intros _. apply elem_of_app. right. by left.
    + simpl. intros Hi. destruct (Hs Hi) as (q & uc & Hin). exists q, uc.
      apply elem_of_app. by left.
  - (* clear *)
    split; [exact Hl|]. simpl. done.
  - (* input *)
    done.
  - (* the timer fires *)
    unfold fire_timer, run_search, debounce_callback, searchUsers_begin, blank.
    cbn [view]. destruct (truthy (trim (t_searchQuery d))); simpl.
    + split.
      * intros Hi. apply elem_of_app. left. by apply Hl.
      * intros _. eexists _, _. apply elem_of_app. right. by left.
    + split; [exact Hl|done].
  - done.
  - done.
Qed.

(** X16: the busy flags are never raised without cause: whenever [loading]
    is set a request for page 1 is awaited (so the "Loading more users"
    indicators never show for a load of a later page alone), and whenever
    [isSearching] is set a search request is awaited. *)
Theorem busy_flags_have_a_request es y :
  run es mount = Some y ->
  (loading (view y) = true -> PageRequest 1 ∈ inflight y)
  /\ (isSearching (view y) = true ->
      exists query users_c, SearchRequest query users_c ∈ inflight y).
Proof.
  assert (G : forall es y0 y, busy_flags_ok y0 -> run es y0 = Some y ->
    busy_flags_ok y).
  { clear. induction es as [|e es IH]; intros y0 y B; simpl.
    - by intros [= <-].
    - destruct (step e y0) as [y1|] eqn:E; simpl; [|done].
      apply IH. by eapply step_busy_flags. }
  intros Hy. apply (G es mount y); [|done].
  split; [intros _; by left|done].
Qed.

Lemma busy_flags_have_a_request_witness :
  PageRequest 1 ∈ inflight mount.
Proof.
  apply (busy_flags_have_a_request [] mount eq_refl). reflexivity.
Defined.
